(** * DamSafetyMonitor: a shallow embedding of the contract and its properties

    The development follows [contracts/DamSafetyMonitor.sol].  Contract
    storage is a record; every external function is a computation in a small
    state-and-revert monad; a transaction commits the final storage when the
    body returns and keeps the storage it started from when the body
    reverts.  The FHE library the contract imports is an interface whose
    operations are taken as parameters. *)

From Stdlib Require Import ZArith List Bool Lia.
From stdpp Require Import gmap strings list fin_maps.

Local Open Scope Z_scope.

(** ** Solidity value types *)

(** [uint256] values are integers in [0, 2^256). *)
Definition uint256_max : Z := 2 ^ 256 - 1.

(** [bytes32]: a 256-bit word. *)
Definition bytes32 : Type := Z.

(** [address]: a 160-bit word. *)
Definition address : Type := Z.

(** [bytes memory]: a byte string. *)
Definition bytes : Type := list Byte.byte.

(** [euint32] and [ebool] are the library's ciphertext handles, user-defined
    value types over [bytes32]; the zero word is the uninitialised handle. *)
Definition euint32 : Type := bytes32.
Definition ebool : Type := bytes32.

(** ** The FHE library (imported from [@fhevm/solidity], not part of the
    contract): its operations are parameters of the development. *)
Class FHE := {
  (** [FHE.asEuint32(v)]: handle of a ciphertext of the 32-bit value [v]. *)
  asEuint32 : Z -> euint32;
  (** [FHE.asEbool(b)]: handle of a ciphertext of the boolean [b]. *)
  asEbool : bool -> ebool;
  (** [FHE.toBytes32(h)]: the raw word of a handle. *)
  toBytes32 : euint32 -> bytes32;
  (** [FHE.decrypt(h)]: the boolean behind an [ebool] handle. *)
  decrypt : ebool -> bool;
  (** [FHE.checkSignatures(requestId, results, proof)] returns normally when
      this predicate holds and reverts otherwise. *)
  checkSignatures : Z -> bytes -> bytes -> bool;
}.

(** ** Structs *)

Record EncryptedSensorData := {
  encryptedSeepage : euint32;
  encryptedDeformation : euint32;
  encryptedPressure : euint32;
  timestamp : Z;
}.

Record RiskAssessment := {
  encryptedRiskScore : euint32;
  encryptedWarningFlag : ebool;
  isAssessed : bool;
}.

(** The struct's fields are [timestamp] and [action]; the prefix keeps the
    projection distinct from [EncryptedSensorData]'s. *)
Record MaintenanceRecord := {
  mr_timestamp : Z;
  mr_action : string;
}.

(** A mapping reads the zero value of its value type at a key that was never
    written; these are the zero values. *)
Global Instance EncryptedSensorData_inhabited : Inhabited EncryptedSensorData :=
  populate {| encryptedSeepage := 0; encryptedDeformation := 0;
              encryptedPressure := 0; timestamp := 0 |}.

Global Instance RiskAssessment_inhabited : Inhabited RiskAssessment :=
  populate {| encryptedRiskScore := 0; encryptedWarningFlag := 0;
              isAssessed := false |}.

(** ** Events *)

Inductive event :=
| SensorDataReceived (dataId : Z) (time : Z)
| RiskAssessmentRequested (dataId : Z)
| RiskWarningGenerated (dataId : Z)
| MaintenanceRecorded (damId : Z) (action : string).

(** A computation request handed to the coprocessor by
    [FHE.requestComputation(ciphertexts, selector)]: the id the library
    returned for it and the ciphertext words that were sent. *)
Record ComputationRequest := {
  cr_reqId : Z;
  cr_ciphertexts : list bytes32;
}.

(** ** Contract state

    The six storage variables of the contract, followed by the two logs a
    transaction leaves outside storage: the events it emitted and the
    computation requests it handed to the library (both oldest first). *)
Record state := {
  sensorData : gmap Z EncryptedSensorData;
  riskAssessments : gmap Z RiskAssessment;
  dataCount : Z;
  encryptedSeepageThreshold : euint32;
  encryptedDeformationThreshold : euint32;
  maintenanceHistory : gmap Z (list MaintenanceRecord);
  events : list event;
  requested : list ComputationRequest;
}.

(** The transaction context: [msg.sender] and [block.timestamp]. *)
Record msg := {
  sender : address;
  block_timestamp : Z;
}.

(** *** Field updates *)

Definition set_sensorData (k : Z) (v : EncryptedSensorData) (st : state) : state :=
  {| sensorData := <[k := v]> (sensorData st);
     riskAssessments := riskAssessments st;
     dataCount := dataCount st;
     encryptedSeepageThreshold := encryptedSeepageThreshold st;
     encryptedDeformationThreshold := encryptedDeformationThreshold st;
     maintenanceHistory := maintenanceHistory st;
     events := events st;
     requested := requested st |}.

Definition set_riskAssessment (k : Z) (v : RiskAssessment) (st : state) : state :=
  {| sensorData := sensorData st;
     riskAssessments := <[k := v]> (riskAssessments st);
     dataCount := dataCount st;
     encryptedSeepageThreshold := encryptedSeepageThreshold st;
     encryptedDeformationThreshold := encryptedDeformationThreshold st;
     maintenanceHistory := maintenanceHistory st;
     events := events st;
     requested := requested st |}.

Definition set_dataCount (n : Z) (st : state) : state :=
  {| sensorData := sensorData st;
     riskAssessments := riskAssessments st;
     dataCount := n;
     encryptedSeepageThreshold := encryptedSeepageThreshold st;
     encryptedDeformationThreshold := encryptedDeformationThreshold st;
     maintenanceHistory := maintenanceHistory st;
     events := events st;
     requested := requested st |}.

Definition set_thresholds (s d : euint32) (st : state) : state :=
  {| sensorData := sensorData st;
     riskAssessments := riskAssessments st;
     dataCount := dataCount st;
     encryptedSeepageThreshold := s;
     encryptedDeformationThreshold := d;
     maintenanceHistory := maintenanceHistory st;
     events := events st;
     requested := requested st |}.

(** [maintenanceHistory[k].push(r)] *)
Definition push_maintenance (k : Z) (r : MaintenanceRecord) (st : state) : state :=
  {| sensorData := sensorData st;
     riskAssessments := riskAssessments st;
     dataCount := dataCount st;
     encryptedSeepageThreshold := encryptedSeepageThreshold st;
     encryptedDeformationThreshold := encryptedDeformationThreshold st;
     maintenanceHistory :=
       <[k := (maintenanceHistory st !!! k) ++ [r]]> (maintenanceHistory st);
     events := events st;
     requested := requested st |}.

Definition log_event (e : event) (st : state) : state :=
  {| sensorData := sensorData st;
     riskAssessments := riskAssessments st;
     dataCount := dataCount st;
     encryptedSeepageThreshold := encryptedSeepageThreshold st;
     encryptedDeformationThreshold := encryptedDeformationThreshold st;
     maintenanceHistory := maintenanceHistory st;
     events := events st ++ [e];
     requested := requested st |}.

Definition log_request (r : ComputationRequest) (st : state) : state :=
  {| sensorData := sensorData st;
     riskAssessments := riskAssessments st;
     dataCount := dataCount st;
     encryptedSeepageThreshold := encryptedSeepageThreshold st;
     encryptedDeformationThreshold := encryptedDeformationThreshold st;
     maintenanceHistory := maintenanceHistory st;
     events := events st;
     requested := requested st ++ [r] |}.

(** ** The state-and-revert monad *)

Inductive error :=
| Require_failed (reason : string)  (* [require(cond, reason)] with [cond] false *)
| Panic_overflow                    (* checked arithmetic, Panic(0x11) *)
| Invalid_proof                     (* [FHE.checkSignatures] reverted *)
| Abi_decode_failed.                (* [abi.decode] reverted *)

Inductive result (A : Type) :=
| Ok (a : A)
| Revert (e : error).
Arguments Ok {A} a.
Arguments Revert {A} e.

Definition M (A : Type) : Type := state -> result (A * state).

Definition ret {A} (a : A) : M A := fun st => Ok (a, st).

Definition bind {A B} (m : M A) (k : A -> M B) : M B :=
  fun st => match m st with
            | Ok (a, st') => k a st'
            | Revert e => Revert e
            end.

Definition revert {A} (e : error) : M A := fun _ => Revert e.

Definition get : M state := fun st => Ok (st, st).

Definition modify (f : state -> state) : M unit := fun st => Ok (tt, f st).

Definition require (cond : bool) (reason : string) : M unit :=
  if cond then ret tt else revert (Require_failed reason).

Definition emit (e : event) : M unit := modify (log_event e).

Notation "x <~ m ;; k" := (bind m (fun x => k))
  (at level 100, m at level 50, k at level 200, only parsing).
Notation "m ;;; k" := (bind m (fun _ => k))
  (at level 100, k at level 200, only parsing).

(** A transaction: the body's final state is committed when it returns; a
    revert rolls every change back, events and requests included. *)
Definition transact {A} (m : M A) (st : state) : result A * state :=
  match m st with
  | Ok (a, st') => (Ok a, st')
  | Revert e => (Revert e, st)
  end.

(** ** ABI decoding *)

(** A big-endian byte string as an integer. *)
Definition be_to_Z (bs : bytes) : Z :=
  fold_left (fun acc b => acc * 256 + Z.of_N (Byte.to_N b)) bs 0.

(** [abi.decode(results, (uint32, bool))]: two 32-byte words, the first
    below [2^32] and the second 0 or 1; anything else reverts.  Bytes after
    the second word are ignored. *)
Definition abi_decode_uint32_bool (results : bytes) : option (Z * bool) :=
  if Z.of_nat (length results) <? 64 then None
  else
    let w0 := be_to_Z (take 32 results) in
    let w1 := be_to_Z (take 32 (drop 32 results)) in
    if w0 <? 2 ^ 32 then
      if w1 =? 0 then Some (w0, false)
      else if w1 =? 1 then Some (w0, true)
      else None
    else None.

(** ** The contract *)

Section Contract.
Context `{fhe : FHE}.

(** [modifier onlyOperator() { _; }]: the body runs for every caller.  The
    source keeps the check in a comment only:
    [// In real implementation: require(operators[msg.sender], "Unauthorized");] *)
Definition onlyOperator {A} (env : msg) (body : M A) : M A := body.

(** [constructor()] *)
Definition constructor : state :=
  {| sensorData := ∅;
     riskAssessments := ∅;
     dataCount := 0;
     encryptedSeepageThreshold := asEuint32 500;
     encryptedDeformationThreshold := asEuint32 100;
     maintenanceHistory := ∅;
     events := [];
     requested := [] |}.

(** [++dataCount] on a [uint256], with Solidity 0.8 checked arithmetic. *)
Definition pre_increment_dataCount : M Z :=
  st <~ get ;;
  if dataCount st <? uint256_max
  then modify (set_dataCount (dataCount st + 1)) ;;; ret (dataCount st + 1)
  else revert Panic_overflow.

(** [function submitSensorData(euint32, euint32, euint32) public onlyOperator] *)
Definition submitSensorData (env : msg) (seepage deformation pressure : euint32)
  : M unit :=
  onlyOperator env (
    newId <~ pre_increment_dataCount ;;
    modify (set_sensorData newId
              {| encryptedSeepage := seepage;
                 encryptedDeformation := deformation;
                 encryptedPressure := pressure;
                 timestamp := block_timestamp env |}) ;;;
    modify (set_riskAssessment newId
              {| encryptedRiskScore := asEuint32 0;
                 encryptedWarningFlag := asEbool false;
                 isAssessed := false |}) ;;;
    emit (SensorDataReceived newId (block_timestamp env))).

(** The five words [requestRiskAssessment] puts in [ciphertexts]. *)
Definition assessment_ciphertexts (st : state) (dataId : Z) : list bytes32 :=
  let data := sensorData st !!! dataId in
  [ toBytes32 (encryptedSeepage data);
    toBytes32 (encryptedDeformation data);
    toBytes32 (encryptedPressure data);
    toBytes32 (encryptedSeepageThreshold st);
    toBytes32 (encryptedDeformationThreshold st) ].

(** [FHE.requestComputation(ciphertexts, this.assessRisk.selector)]: hands
    the words to the library; [reqId] is the id the library answers. *)
Definition requestComputation (reqId : Z) (ciphertexts : list bytes32) : M Z :=
  modify (log_request {| cr_reqId := reqId; cr_ciphertexts := ciphertexts |}) ;;;
  ret reqId.

(** [function requestRiskAssessment(uint256 dataId) public onlyOperator].
    [oracleId] is what [FHE.requestComputation] returns during this call;
    the function binds it to the local [reqId] and never uses it. *)
Definition requestRiskAssessment (env : msg) (oracleId : Z) (dataId : Z) : M unit :=
  onlyOperator env (
    st <~ get ;;
    require (negb (isAssessed (riskAssessments st !!! dataId))) "Already assessed" ;;;
    let ciphertexts := assessment_ciphertexts st dataId in
    reqId <~ requestComputation oracleId ciphertexts ;;
    emit (RiskAssessmentRequested dataId)).

(** [function assessRisk(uint256 requestId, bytes results, bytes proof) public] *)
Definition assessRisk (requestId : Z) (results proof : bytes) : M unit :=
  (if checkSignatures requestId results proof then ret tt
   else revert Invalid_proof) ;;;
  match abi_decode_uint32_bool results with
  | None => revert Abi_decode_failed
  | Some (riskScore, warningFlag) =>
      modify (set_riskAssessment requestId
                {| encryptedRiskScore := asEuint32 riskScore;
                   encryptedWarningFlag := asEbool warningFlag;
                   isAssessed := true |}) ;;;
      if warningFlag then emit (RiskWarningGenerated requestId) else ret tt
  end.

(** [function recordMaintenance(uint256 damId, string action) public onlyOperator] *)
Definition recordMaintenance (env : msg) (damId : Z) (action : string) : M unit :=
  onlyOperator env (
    modify (push_maintenance damId
              {| mr_timestamp := block_timestamp env; mr_action := action |}) ;;;
    emit (MaintenanceRecorded damId action)).

(** [function updateSafetyThresholds(euint32, euint32) public onlyOperator] *)
Definition updateSafetyThresholds (env : msg)
    (newSeepageThreshold newDeformationThreshold : euint32) : M unit :=
  onlyOperator env (
    modify (set_thresholds newSeepageThreshold newDeformationThreshold)).

(** *** View functions: they read the state and cannot write it. *)

(** [function getEncryptedRiskScore(uint256 dataId) public view returns (euint32)] *)
Definition getEncryptedRiskScore (st : state) (dataId : Z) : result euint32 :=
  if isAssessed (riskAssessments st !!! dataId)
  then Ok (encryptedRiskScore (riskAssessments st !!! dataId))
  else Revert (Require_failed "Not assessed").

(** [function hasWarning(uint256 dataId) public view returns (bool)] *)
Definition hasWarning (st : state) (dataId : Z) : result bool :=
  if isAssessed (riskAssessments st !!! dataId)
  then Ok (decrypt (encryptedWarningFlag (riskAssessments st !!! dataId)))
  else Revert (Require_failed "Not assessed").

(** [function getMaintenanceHistory(uint256 damId) public view] *)
Definition getMaintenanceHistory (st : state) (damId : Z) : list MaintenanceRecord :=
  maintenanceHistory st !!! damId.

(** The getter Solidity generates for [mapping(...) public riskAssessments]. *)
Definition getRiskAssessment (st : state) (dataId : Z) : RiskAssessment :=
  riskAssessments st !!! dataId.

(** The getter Solidity generates for [mapping(...) public sensorData]. *)
Definition getSensorData (st : state) (dataId : Z) : EncryptedSensorData :=
  sensorData st !!! dataId.

(** *** Transactions and traces *)

(** The state-changing entry points of the contract. *)
Inductive call :=
| SubmitSensorData (seepage deformation pressure : euint32)
| RequestRiskAssessment (oracleId : Z) (dataId : Z)
| AssessRisk (requestId : Z) (results proof : bytes)
| RecordMaintenance (damId : Z) (action : string)
| UpdateSafetyThresholds (newSeepageThreshold newDeformationThreshold : euint32).

Definition dispatch (env : msg) (c : call) : M unit :=
  match c with
  | SubmitSensorData s d p => submitSensorData env s d p
  | RequestRiskAssessment o i => requestRiskAssessment env o i
  | AssessRisk r res pf => assessRisk r res pf
  | RecordMaintenance k a => recordMaintenance env k a
  | UpdateSafetyThresholds s d => updateSafetyThresholds env s d
  end.

(** What the caller observes, and the state the transaction leaves. *)
Definition outcome (env : msg) (c : call) (st : state) : result unit :=
  fst (transact (dispatch env c) st).

Definition exec (env : msg) (c : call) (st : state) : state :=
  snd (transact (dispatch env c) st).

(** A sequence of transactions, each in its own context, oldest first. *)
Fixpoint exec_trace (tr : list (msg * call)) (st : state) : state :=
  match tr with
  | [] => st
  | (env, c) :: tr' => exec_trace tr' (exec env c st)
  end.

End Contract.

(** ** A transparent instance of the library, for running the contract

    Handles carry their plaintext in the low bits under a tag, and a proof is
    accepted when it reads as the request id followed by the 64 result bytes. *)
Definition plain_fhe : FHE :=
  {| asEuint32 := fun v => 2 ^ 32 + v;
     asEbool := fun b => 2 ^ 33 + (if b then 1 else 0);
     toBytes32 := fun h => h;
     decrypt := fun h => Z.odd h;
     checkSignatures := fun requestId results proof =>
       be_to_Z proof =? requestId * 2 ^ 512 + be_to_Z results |}.

(** [abi.encode(uint32(score), flag)] for a one-byte score. *)
Definition encode_result (score : Byte.byte) (flag : bool) : bytes :=
  repeat Byte.x00 31 ++ [score] ++
  repeat Byte.x00 31 ++ [if flag then Byte.x01 else Byte.x00].

(** The proof [plain_fhe] accepts for [encode_result score flag] under a
    one-byte request id. *)
Definition plain_proof (requestId : Byte.byte) (score : Byte.byte) (flag : bool) : bytes :=
  requestId :: encode_result score flag.

(** A caller that was never given any capability. *)
Definition stranger : msg := {| sender := 57005; block_timestamp := 1700000000 |}.

(** The deploying operator's context. *)
Definition operator : msg := {| sender := 1; block_timestamp := 1700000000 |}.

(** *** Concrete runs *)

(** Record 1 is submitted on a fresh contract. *)
Definition submitted_once : state :=
  @exec plain_fhe operator (SubmitSensorData 11 12 13) (@constructor plain_fhe).

(** Record 1 is submitted and an assessment of it is requested; the
    coprocessor numbers the request 0. *)
Definition requested_as_0 : state :=
  @exec_trace plain_fhe
    [ (operator, SubmitSensorData 11 12 13);
      (operator, RequestRiskAssessment 0 1) ]
    (@constructor plain_fhe).

(** The same, with the coprocessor numbering the request 1. *)
Definition requested_as_1 : state :=
  @exec_trace plain_fhe
    [ (operator, SubmitSensorData 11 12 13);
      (operator, RequestRiskAssessment 1 1) ]
    (@constructor plain_fhe).

(** A result with score 42 and the warning raised, and its proof for
    request 1. *)
Definition first_delivery : call :=
  AssessRisk 1 (encode_result Byte.x2a true) (plain_proof Byte.x01 Byte.x2a true).

(** A different result, score 7 and no warning, with its proof for the same
    request 1. *)
Definition second_delivery : call :=
  AssessRisk 1 (encode_result Byte.x07 false) (plain_proof Byte.x01 Byte.x07 false).

(** The state after the first result for request 1 was delivered. *)
Definition delivered_once : state :=
  @exec plain_fhe operator first_delivery requested_as_1.

(** Record 1 is submitted and its assessment requested; the coprocessor
    numbers the request 2 and its result is delivered under that number,
    while the contract holds one record only. *)
Definition delivered_ahead : state :=
  @exec_trace plain_fhe
    [ (operator, SubmitSensorData 11 12 13);
      (operator, RequestRiskAssessment 2 1);
      (operator, AssessRisk 2 (encode_result Byte.x2a true)
                              (plain_proof Byte.x02 Byte.x2a true)) ]
    (@constructor plain_fhe).

(** ** Observers of states and traces *)

Section Observers.
Context `{fhe : FHE}.

(** The getter Solidity generates for
    [mapping(uint256 => MaintenanceRecord[]) public maintenanceHistory]: it
    takes the key and an array index and returns that element; an index at
    or beyond the array length makes the call revert, which is [None] here. *)
Definition maintenanceHistory_at (st : state) (damId : Z) (index : nat)
  : option MaintenanceRecord :=
  (maintenanceHistory st !!! damId) !! index.

(** The states the deployed contract can be in: those some sequence of
    transactions leads to from the constructor's state. *)
Definition reachable (st : state) : Prop :=
  exists tr, st = exec_trace tr constructor.

(** The two stored threshold handles. *)
Definition thresholds (st : state) : euint32 * euint32 :=
  (encryptedSeepageThreshold st, encryptedDeformationThreshold st).

(** The thresholds the last update of a trace asked for, or [init] when the
    trace updates none. *)
Definition thresholds_after (tr : list (msg * call)) (init : euint32 * euint32)
  : euint32 * euint32 :=
  fold_left (fun acc ec =>
               match snd ec with
               | UpdateSafetyThresholds s d => (s, d)
               | _ => acc
               end) tr init.

(** The number of submissions in a trace. *)
Definition submissions (tr : list (msg * call)) : Z :=
  Z.of_nat (length (omap (fun ec =>
                            match snd ec with
                            | SubmitSensorData _ _ _ => Some tt
                            | _ => None
                            end) tr)).

(** The ledger entries a trace records for one asset, oldest first: one
    entry (block time, action) for each [recordMaintenance] call on
    [damId], and nothing for any other call. *)
Definition recorded_entries (damId : Z) (tr : list (msg * call))
  : list MaintenanceRecord :=
  omap (fun ec =>
          match snd ec with
          | RecordMaintenance k a =>
              if decide (k = damId)
              then Some {| mr_timestamp := block_timestamp (fst ec);
                           mr_action := a |}
              else None
          | _ => None
          end) tr.

(** A trace with every [msg.sender] replaced through [f]. *)
Definition with_senders (f : address -> address) (tr : list (msg * call))
  : list (msg * call) :=
  map (fun ec => ({| sender := f (sender (fst ec));
                     block_timestamp := block_timestamp (fst ec) |}, snd ec)) tr.

End Observers.

(** The [SensorDataReceived] events of a log, as (id, time) pairs. *)
Definition sensor_events (evs : list event) : list (Z * Z) :=
  omap (fun e => match e with
                 | SensorDataReceived i t => Some (i, t)
                 | _ => None
                 end) evs.

(** The data ids of the [RiskAssessmentRequested] events of a log. *)
Definition request_events (evs : list event) : list Z :=
  omap (fun e => match e with
                 | RiskAssessmentRequested i => Some i
                 | _ => None
                 end) evs.

(** The [MaintenanceRecorded] events of a log for one asset. *)
Definition maintenance_events (damId : Z) (evs : list event) : list string :=
  omap (fun e => match e with
                 | MaintenanceRecorded k a =>
                     if decide (k = damId) then Some a else None
                 | _ => None
                 end) evs.

(** A state whose counter is at the top of [uint256]. *)
Definition counter_full : state :=
  set_dataCount uint256_max (@constructor plain_fhe).

(** Three maintenance records, two of them for asset 3. *)
Definition maintained : state :=
  @exec_trace plain_fhe
    [ (operator, RecordMaintenance 3 "grouting");
      (operator, RecordMaintenance 4 "inspection");
      (stranger, RecordMaintenance 3 "drain cleaning") ]
    (@constructor plain_fhe).

(** * Properties *)

Section Properties.
Context `{fhe : FHE}.

(** ** What each entry point computes *)

Ltac unfold_monad :=
  unfold onlyOperator, pre_increment_dataCount, requestComputation,
    require, emit, bind, ret, modify, get, revert in *.

Lemma submitSensorData_run env s d p st :
  submitSensorData env s d p st =
  if dataCount st <? uint256_max then
    let newId := dataCount st + 1 in
    Ok (tt,
        log_event (SensorDataReceived newId (block_timestamp env))
          (set_riskAssessment newId
             {| encryptedRiskScore := asEuint32 0;
                encryptedWarningFlag := asEbool false;
                isAssessed := false |}
             (set_sensorData newId
                {| encryptedSeepage := s; encryptedDeformation := d;
                   encryptedPressure := p; timestamp := block_timestamp env |}
                (set_dataCount newId st))))
  else Revert Panic_overflow.
Proof.
  unfold submitSensorData. unfold_monad.
  destruct (dataCount st <? uint256_max); reflexivity.
Qed.

Lemma requestRiskAssessment_run env oracleId dataId st :
  requestRiskAssessment env oracleId dataId st =
  if isAssessed (riskAssessments st !!! dataId) then
    Revert (Require_failed "Already assessed")
  else
    Ok (tt,
        log_event (RiskAssessmentRequested dataId)
          (log_request {| cr_reqId := oracleId;
                          cr_ciphertexts := assessment_ciphertexts st dataId |} st)).
Proof.
  unfold requestRiskAssessment. unfold_monad.
  destruct (isAssessed (riskAssessments st !!! dataId)); reflexivity.
Qed.

Lemma assessRisk_run requestId results proof st :
  assessRisk requestId results proof st =
  if checkSignatures requestId results proof then
    match abi_decode_uint32_bool results with
    | None => Revert Abi_decode_failed
    | Some (riskScore, warningFlag) =>
        let st' := set_riskAssessment requestId
                     {| encryptedRiskScore := asEuint32 riskScore;
                        encryptedWarningFlag := asEbool warningFlag;
                        isAssessed := true |} st in
        Ok (tt, if warningFlag then log_event (RiskWarningGenerated requestId) st'
                else st')
    end
  else Revert Invalid_proof.
Proof.
  unfold assessRisk. unfold_monad.
  destruct (checkSignatures requestId results proof); [|reflexivity].
  destruct (abi_decode_uint32_bool results) as [[score []]|]; reflexivity.
Qed.

Lemma recordMaintenance_run env damId action st :
  recordMaintenance env damId action st =
  Ok (tt,
      log_event (MaintenanceRecorded damId action)
        (push_maintenance damId
           {| mr_timestamp := block_timestamp env; mr_action := action |} st)).
Proof. reflexivity. Qed.

Lemma updateSafetyThresholds_run env s d st :
  updateSafetyThresholds env s d st = Ok (tt, set_thresholds s d st).
Proof. reflexivity. Qed.

(** Every transaction either commits or leaves the state as it was. *)
Lemma exec_revert env c st e :
  outcome env c st = Revert e -> exec env c st = st.
Proof.
  unfold outcome, exec, transact.
  destruct (dispatch env c st) as [[[] st']|e']; simpl; [discriminate | reflexivity].
Qed.

(** The state a successful delivery commits. *)
Lemma assessRisk_exec env requestId results proof st riskScore warningFlag :
  checkSignatures requestId results proof = true ->
  abi_decode_uint32_bool results = Some (riskScore, warningFlag) ->
  outcome env (AssessRisk requestId results proof) st = Ok tt /\
  riskAssessments (exec env (AssessRisk requestId results proof) st) =
    <[requestId := {| encryptedRiskScore := asEuint32 riskScore;
                      encryptedWarningFlag := asEbool warningFlag;
                      isAssessed := true |}]> (riskAssessments st).
Proof.
  intros Hsig Hdec. unfold outcome, exec, transact, dispatch.
  rewrite assessRisk_run, Hsig, Hdec. simpl.
  destruct warningFlag; split; reflexivity.
Qed.

(** *** Frame facts: what each transaction leaves alone *)

(** [dataCount] never decreases. *)
Lemma dataCount_exec env c st : dataCount st <= dataCount (exec env c st).
Proof.
  unfold exec, transact; destruct c as [s d p|o i|r res pf|k a|s d]; simpl.
  - rewrite submitSensorData_run.
    destruct (dataCount st <? uint256_max); simpl; lia.
  - rewrite requestRiskAssessment_run.
    destruct (isAssessed _); simpl; lia.
  - rewrite assessRisk_run.
    destruct (checkSignatures _ _ _); simpl; [|lia].
    destruct (abi_decode_uint32_bool _) as [[score []]|]; simpl; lia.
  - simpl; lia.
  - simpl; lia.
Qed.

Lemma dataCount_exec_trace tr st : dataCount st <= dataCount (exec_trace tr st).
Proof.
  revert st; induction tr as [|[env c] tr IH]; intros st; simpl; [lia|].
  etransitivity; [apply (dataCount_exec env c)|apply IH].
Qed.

(** A record at or below [dataCount] is touched by a delivery addressed to it
    and by nothing else; a delivery leaves it assessed. *)
Lemma riskAssessment_exec env c st id :
  id <= dataCount st ->
  riskAssessments (exec env c st) !!! id = riskAssessments st !!! id \/
  isAssessed (riskAssessments (exec env c st) !!! id) = true.
Proof.
  intros Hid. unfold exec, transact; destruct c as [s d p|o i|r res pf|k a|s d]; simpl.
  - rewrite submitSensorData_run.
    destruct (dataCount st <? uint256_max); simpl; [|now left].
    left. apply lookup_total_insert_ne. lia.
  - rewrite requestRiskAssessment_run.
    destruct (isAssessed _); simpl; now left.
  - rewrite assessRisk_run.
    destruct (checkSignatures _ _ _); simpl; [|now left].
    destruct (abi_decode_uint32_bool _) as [[score flag]|]; simpl; [|now left].
    destruct (decide (r = id)) as [->|Hne].
    + right. destruct flag; simpl; rewrite lookup_total_insert_eq; reflexivity.
    + left. destruct flag; simpl; apply lookup_total_insert_ne; assumption.
  - now left.
  - now left.
Qed.

(** [isAssessed] of a record at or below [dataCount] survives a transaction. *)
Lemma isAssessed_exec env c st id :
  id <= dataCount st ->
  isAssessed (riskAssessments st !!! id) = true ->
  isAssessed (riskAssessments (exec env c st) !!! id) = true.
Proof.
  intros Hid Hass.
  destruct (riskAssessment_exec env c st id Hid) as [Heq|Ht];
    [rewrite Heq|]; assumption.
Qed.

(** The maintenance history of an asset only grows at its end. *)
Lemma maintenanceHistory_exec env c st damId :
  exists suffix,
    maintenanceHistory (exec env c st) !!! damId =
    maintenanceHistory st !!! damId ++ suffix.
Proof.
  unfold exec, transact; destruct c as [s d p|o i|r res pf|k a|s d]; simpl.
  - rewrite submitSensorData_run.
    destruct (dataCount st <? uint256_max); simpl; exists []; now rewrite app_nil_r.
  - rewrite requestRiskAssessment_run.
    destruct (isAssessed _); simpl; exists []; now rewrite app_nil_r.
  - rewrite assessRisk_run.
    destruct (checkSignatures _ _ _); simpl; [|exists []; now rewrite app_nil_r].
    destruct (abi_decode_uint32_bool _) as [[score []]|]; simpl;
      exists []; now rewrite app_nil_r.
  - destruct (decide (k = damId)) as [->|Hne].
    + eexists. rewrite lookup_total_insert_eq. reflexivity.
    + exists []. rewrite lookup_total_insert_ne by assumption. now rewrite app_nil_r.
  - exists []; now rewrite app_nil_r.
Qed.

(** The requests already handed to the coprocessor are never rewritten. *)
Lemma requested_exec env c st :
  exists suffix, requested (exec env c st) = requested st ++ suffix.
Proof.
  unfold exec, transact; destruct c as [s d p|o i|r res pf|k a|s d]; simpl.
  - rewrite submitSensorData_run.
    destruct (dataCount st <? uint256_max); simpl; exists []; now rewrite app_nil_r.
  - rewrite requestRiskAssessment_run.
    destruct (isAssessed _); simpl; [exists []; now rewrite app_nil_r|].
    eexists; reflexivity.
  - rewrite assessRisk_run.
    destruct (checkSignatures _ _ _); simpl; [|exists []; now rewrite app_nil_r].
    destruct (abi_decode_uint32_bool _) as [[score []]|]; simpl;
      exists []; now rewrite app_nil_r.
  - exists []; now rewrite app_nil_r.
  - exists []; now rewrite app_nil_r.
Qed.

(** ** Submission *)

(** C8: a submission that does not overflow the counter succeeds, takes the
    id [dataCount + 1], stores the three ciphertexts with the block time, and
    pairs them with an assessment record holding a ciphertext of zero, a
    ciphertext of false and [isAssessed = false]; both getters return these
    right after the call, every other record is as before, and the counter
    never falls below the new id afterwards, so no later submission is given
    this id or a smaller one. *)
Theorem submitSensorData_allocates env st seepage deformation pressure :
  dataCount st < uint256_max ->
  let newId := dataCount st + 1 in
  let st' := exec env (SubmitSensorData seepage deformation pressure) st in
  outcome env (SubmitSensorData seepage deformation pressure) st = Ok tt /\
  dataCount st' = newId /\
  getSensorData st' newId =
    {| encryptedSeepage := seepage; encryptedDeformation := deformation;
       encryptedPressure := pressure; timestamp := block_timestamp env |} /\
  getRiskAssessment st' newId =
    {| encryptedRiskScore := asEuint32 0;
       encryptedWarningFlag := asEbool false;
       isAssessed := false |} /\
  (forall id, id <> newId ->
     getRiskAssessment st' id = getRiskAssessment st id /\
     getSensorData st' id = getSensorData st id) /\
  (forall tr, newId <= dataCount (exec_trace tr st')).
Proof.
  intros Hlt newId st'.
  assert (Hrun : transact (submitSensorData env seepage deformation pressure) st =
                 (Ok tt, st')).
  { unfold st', exec, dispatch. destruct (transact _ st) as [[[]|e] s2] eqn:E.
    - reflexivity.
    - exfalso. unfold transact in E. rewrite submitSensorData_run in E.
      apply Z.ltb_lt in Hlt. rewrite Hlt in E. discriminate. }
  assert (Hst : st' =
    log_event (SensorDataReceived newId (block_timestamp env))
      (set_riskAssessment newId
         {| encryptedRiskScore := asEuint32 0;
            encryptedWarningFlag := asEbool false;
            isAssessed := false |}
         (set_sensorData newId
            {| encryptedSeepage := seepage; encryptedDeformation := deformation;
               encryptedPressure := pressure; timestamp := block_timestamp env |}
            (set_dataCount newId st)))).
  { unfold transact in Hrun. rewrite submitSensorData_run in Hrun.
    apply Z.ltb_lt in Hlt. rewrite Hlt in Hrun. simpl in Hrun.
    now inversion Hrun. }
  split; [unfold outcome, dispatch; now rewrite Hrun|].
  assert (Hcount : dataCount st' = newId) by now rewrite Hst.
  split; [exact Hcount|].
  unfold getSensorData, getRiskAssessment.
  split; [rewrite Hst; simpl; apply lookup_total_insert_eq|].
  split; [rewrite Hst; simpl; apply lookup_total_insert_eq|].
  split.
  - intros id Hid. rewrite Hst; simpl.
    split; apply lookup_total_insert_ne; congruence.
  - intros tr. rewrite <- Hcount. apply dataCount_exec_trace.
Qed.

(** ** Maintenance ledger *)

(** What one transaction adds to the history of an asset. *)
Lemma maintenanceHistory_exec_entries env c st damId :
  maintenanceHistory (exec env c st) !!! damId =
  maintenanceHistory st !!! damId ++ recorded_entries damId [(env, c)].
Proof.
  unfold recorded_entries, exec, transact;
    destruct c as [s d p|o i|r res pf|k a|s d]; simpl.
  - rewrite submitSensorData_run.
    destruct (dataCount st <? uint256_max); simpl; now rewrite app_nil_r.
  - rewrite requestRiskAssessment_run.
    destruct (isAssessed _); simpl; now rewrite app_nil_r.
  - rewrite assessRisk_run.
    destruct (checkSignatures _ _ _); simpl; [|now rewrite app_nil_r].
    destruct (abi_decode_uint32_bool _) as [[score []]|]; simpl;
      now rewrite app_nil_r.
  - case_decide as Hk.
    + subst k. simpl. apply lookup_total_insert_eq.
    + simpl. rewrite lookup_total_insert_ne by exact Hk. now rewrite app_nil_r.
  - now rewrite app_nil_r.
Qed.

Lemma recorded_entries_cons damId env c tr :
  recorded_entries damId ((env, c) :: tr) =
  recorded_entries damId [(env, c)] ++ recorded_entries damId tr.
Proof.
  unfold recorded_entries.
  change ((env, c) :: tr) with ([(env, c)] ++ tr). apply omap_app.
Qed.

(** The history of an asset after a trace is the history before it followed
    by the entries the trace records for that asset. *)
Lemma maintenanceHistory_exec_trace tr st damId :
  maintenanceHistory (exec_trace tr st) !!! damId =
  maintenanceHistory st !!! damId ++ recorded_entries damId tr.
Proof.
  revert st. induction tr as [|[env c] tr IH]; intros st.
  - simpl. now rewrite app_nil_r.
  - cbn [exec_trace]. rewrite IH, maintenanceHistory_exec_entries.
    rewrite (recorded_entries_cons damId env c tr). symmetry. apply app_assoc.
Qed.

(** C9: the history of each asset is its own append-only sequence.
    Recording a maintenance action on [damId] always succeeds and puts the
    entry (block time, action) at the end of the history of [damId]; a
    record made for another asset, and every call that is not a maintenance
    record for [damId], leaves the history of [damId] as it is; three
    entries recorded in a row on a fresh contract are returned as exactly
    [E1, E2, E3]; and after any sequence of transactions the history of
    [damId] is the history before it followed by exactly the entries that
    sequence recorded for [damId], in the order of the calls, so no entry is
    changed, removed or moved, and none comes from elsewhere. *)
Theorem maintenance_history_append_only st damId :
  (forall env action,
     outcome env (RecordMaintenance damId action) st = Ok tt /\
     getMaintenanceHistory (exec env (RecordMaintenance damId action) st) damId =
     getMaintenanceHistory st damId ++
       [{| mr_timestamp := block_timestamp env; mr_action := action |}]) /\
  (forall e1 e2 e3 a1 a2 a3,
     getMaintenanceHistory
       (exec_trace [(e1, RecordMaintenance damId a1);
                    (e2, RecordMaintenance damId a2);
                    (e3, RecordMaintenance damId a3)] constructor) damId =
     [{| mr_timestamp := block_timestamp e1; mr_action := a1 |};
      {| mr_timestamp := block_timestamp e2; mr_action := a2 |};
      {| mr_timestamp := block_timestamp e3; mr_action := a3 |}]) /\
  (forall tr, exists suffix,
     getMaintenanceHistory (exec_trace tr st) damId =
     getMaintenanceHistory st damId ++ suffix) /\
  (forall env other action,
     other <> damId ->
     outcome env (RecordMaintenance other action) st = Ok tt /\
     getMaintenanceHistory (exec env (RecordMaintenance other action) st) damId =
     getMaintenanceHistory st damId) /\
  (forall env c,
     (forall action, c <> RecordMaintenance damId action) ->
     getMaintenanceHistory (exec env c st) damId = getMaintenanceHistory st damId) /\
  (forall tr,
     getMaintenanceHistory (exec_trace tr st) damId =
     getMaintenanceHistory st damId ++ recorded_entries damId tr) /\
  (forall e1 e2 e3 a1 a2 a3 before between1 between2 after,
     recorded_entries damId before = [] ->
     recorded_entries damId between1 = [] ->
     recorded_entries damId between2 = [] ->
     recorded_entries damId after = [] ->
     getMaintenanceHistory
       (exec_trace (before ++ [(e1, RecordMaintenance damId a1)] ++
                    between1 ++ [(e2, RecordMaintenance damId a2)] ++
                    between2 ++ [(e3, RecordMaintenance damId a3)] ++ after)
          st) damId =
     getMaintenanceHistory st damId ++
     [{| mr_timestamp := block_timestamp e1; mr_action := a1 |};
      {| mr_timestamp := block_timestamp e2; mr_action := a2 |};
      {| mr_timestamp := block_timestamp e3; mr_action := a3 |}]).
Proof.
  unfold getMaintenanceHistory. split; [|split; [|split; [|split; [|split; [|split]]]]].
  - intros env action. split; [reflexivity|].
    unfold exec, transact; simpl. apply lookup_total_insert_eq.
  - intros e1 e2 e3 a1 a2 a3. unfold exec_trace, exec, transact; simpl.
    rewrite !lookup_total_insert_eq. reflexivity.
  - intros tr. exists (recorded_entries damId tr).
    apply maintenanceHistory_exec_trace.
  - intros env other action Hne. split; [reflexivity|].
    unfold exec, transact; simpl. apply lookup_total_insert_ne. exact Hne.
  - intros env c Hc. rewrite maintenanceHistory_exec_entries.
    unfold recorded_entries.
    destruct c as [s d p|o i|r res pf|k a|s d]; simpl;
      try apply app_nil_r.
    case_decide as Hk; [|apply app_nil_r].
    subst k. exfalso. now apply (Hc a).
  - intros tr. apply maintenanceHistory_exec_trace.
  - intros e1 e2 e3 a1 a2 a3 before between1 between2 after Hb H1 H2 Ha.
    rewrite maintenanceHistory_exec_trace. f_equal.
    unfold recorded_entries in *.
    rewrite !omap_app, Hb, H1, H2, Ha. simpl.
    rewrite !decide_True by reflexivity. reflexivity.
Qed.

(** ** Reading an assessment *)

(** C10: when the record of [dataId] is not assessed, which includes every
    id the mapping was never written at, [getEncryptedRiskScore] and
    [hasWarning] both revert with "Not assessed" and return no value. *)
Theorem reads_require_assessed st dataId :
  riskAssessments st !! dataId = None \/
  isAssessed (getRiskAssessment st dataId) = false ->
  getEncryptedRiskScore st dataId = Revert (Require_failed "Not assessed") /\
  hasWarning st dataId = Revert (Require_failed "Not assessed") /\
  (forall v, getEncryptedRiskScore st dataId <> Ok v) /\
  (forall b, hasWarning st dataId <> Ok b).
Proof.
  intros H.
  assert (Hna : isAssessed (riskAssessments st !!! dataId) = false).
  { destruct H as [Hnone|Hf]; [|exact Hf].
    rewrite lookup_total_alt, Hnone. reflexivity. }
  unfold getEncryptedRiskScore, hasWarning. rewrite Hna.
  repeat split; intros; discriminate.
Qed.

(** The other direction: an assessed record is readable. *)
Lemma reads_of_assessed st dataId :
  isAssessed (getRiskAssessment st dataId) = true ->
  getEncryptedRiskScore st dataId =
    Ok (encryptedRiskScore (getRiskAssessment st dataId)) /\
  hasWarning st dataId =
    Ok (decrypt (encryptedWarningFlag (getRiskAssessment st dataId))).
Proof.
  unfold getEncryptedRiskScore, hasWarning, getRiskAssessment.
  intros ->. split; reflexivity.
Qed.

(** ** Delivery of a result *)

(** C3: a delivery whose proof [FHE.checkSignatures] rejects reverts at the
    first statement of [assessRisk], whatever the result payload holds, and
    the transaction leaves the whole state (records, thresholds, ledger,
    events, requests) exactly as it was. *)
Theorem invalid_proof_no_effect env st requestId results proof :
  checkSignatures requestId results proof = false ->
  assessRisk requestId results proof st = Revert Invalid_proof /\
  outcome env (AssessRisk requestId results proof) st = Revert Invalid_proof /\
  exec env (AssessRisk requestId results proof) st = st.
Proof.
  intros Hsig.
  assert (Hrun : assessRisk requestId results proof st = Revert Invalid_proof).
  { rewrite assessRisk_run, Hsig. reflexivity. }
  split; [exact Hrun|].
  unfold outcome, exec, transact, dispatch. rewrite Hrun. split; reflexivity.
Qed.

(** A delivery writes the record stored under the request id it was called
    with and no other record. *)
Lemma assessRisk_frame env st requestId results proof id :
  id <> requestId ->
  getRiskAssessment (exec env (AssessRisk requestId results proof) st) id =
  getRiskAssessment st id.
Proof.
  intros Hne. unfold getRiskAssessment, exec, transact, dispatch.
  rewrite assessRisk_run.
  destruct (checkSignatures _ _ _); simpl; [|reflexivity].
  destruct (abi_decode_uint32_bool _) as [[score []]|]; simpl;
    try reflexivity; apply lookup_total_insert_ne; congruence.
Qed.

(** A transaction that fails leaves the state alone, and a delivery fails
    for one of two reasons only. *)
Lemma assessRisk_failure env st requestId results proof e :
  outcome env (AssessRisk requestId results proof) st = Revert e ->
  (e = Invalid_proof \/ e = Abi_decode_failed) /\
  exec env (AssessRisk requestId results proof) st = st.
Proof.
  intros Hout. split; [|eapply exec_revert; eassumption].
  unfold outcome, transact, dispatch in Hout. rewrite assessRisk_run in Hout.
  destruct (checkSignatures _ _ _); simpl in Hout.
  - destruct (abi_decode_uint32_bool _) as [[score []]|]; simpl in Hout;
      inversion Hout; auto.
  - inversion Hout; auto.
Qed.

(** C2 (as the contract has it): the contract keeps no table of outstanding
    requests, so a delivery is not consumed.  After one successful delivery
    for [requestId], a second call with the same [requestId] whose proof
    verifies and whose result decodes succeeds again and overwrites the
    record stored under [requestId] with its own score and flag; a call that
    fails does so with an invalid proof or an undecodable result and leaves
    the state unchanged. *)
Theorem assessRisk_redelivery env1 env2 st requestId res1 pf1 res2 pf2 score flag :
  outcome env1 (AssessRisk requestId res1 pf1) st = Ok tt ->
  checkSignatures requestId res2 pf2 = true ->
  abi_decode_uint32_bool res2 = Some (score, flag) ->
  let st1 := exec env1 (AssessRisk requestId res1 pf1) st in
  outcome env2 (AssessRisk requestId res2 pf2) st1 = Ok tt /\
  getRiskAssessment (exec env2 (AssessRisk requestId res2 pf2) st1) requestId =
    {| encryptedRiskScore := asEuint32 score;
       encryptedWarningFlag := asEbool flag;
       isAssessed := true |} /\
  (forall res pf e,
     outcome env2 (AssessRisk requestId res pf) st1 = Revert e ->
     (e = Invalid_proof \/ e = Abi_decode_failed) /\
     exec env2 (AssessRisk requestId res pf) st1 = st1).
Proof.
  intros _ Hsig Hdec st1.
  destruct (assessRisk_exec env2 requestId res2 pf2 st1 score flag Hsig Hdec)
    as [Hout Hrec].
  split; [exact Hout|]. split.
  - unfold getRiskAssessment. rewrite Hrec. apply lookup_total_insert_eq.
  - intros res pf e. apply assessRisk_failure.
Qed.

(** ** Requesting an assessment *)

(** C4 (as the contract has it): [requestRiskAssessment] checks one thing.
    It reverts with "Already assessed", changing nothing, when the record's
    [isAssessed] is true; in every other state it succeeds, whether or not
    earlier requests for the same record are still unanswered and whether or
    not the id was ever submitted: it hands the five ciphertexts to the
    coprocessor, emits [RiskAssessmentRequested] and leaves all six storage
    variables (assessment records, sensor records, counter, both thresholds,
    maintenance history) as they were. *)
Theorem requestRiskAssessment_guard env st oracleId dataId :
  let c := RequestRiskAssessment oracleId dataId in
  (isAssessed (getRiskAssessment st dataId) = true /\
   outcome env c st = Revert (Require_failed "Already assessed") /\
   exec env c st = st) \/
  (isAssessed (getRiskAssessment st dataId) = false /\
   outcome env c st = Ok tt /\
   requested (exec env c st) =
     requested st ++ [{| cr_reqId := oracleId;
                         cr_ciphertexts := assessment_ciphertexts st dataId |}] /\
   events (exec env c st) = events st ++ [RiskAssessmentRequested dataId] /\
   riskAssessments (exec env c st) = riskAssessments st /\
   sensorData (exec env c st) = sensorData st /\
   dataCount (exec env c st) = dataCount st /\
   encryptedSeepageThreshold (exec env c st) = encryptedSeepageThreshold st /\
   encryptedDeformationThreshold (exec env c st) =
     encryptedDeformationThreshold st /\
   maintenanceHistory (exec env c st) = maintenanceHistory st).
Proof.
  unfold getRiskAssessment, outcome, exec, transact, dispatch.
  rewrite requestRiskAssessment_run.
  destruct (isAssessed (riskAssessments st !!! dataId)); simpl.
  - left. repeat split.
  - right. repeat split.
Qed.

(** ** Thresholds *)

(** C7: the request handed to the coprocessor holds the three sensor
    ciphertexts and the two thresholds as they are stored when the request
    is made; a threshold update after the request, and any later sequence of
    transactions, leaves that request as it was sent; and a delivery has the
    same outcome and writes the same assessment records whether or not the
    thresholds were updated in between. *)
Theorem thresholds_snapshot env1 env2 env3 st oracleId dataId
    newSeepage newDeformation requestId results proof :
  isAssessed (getRiskAssessment st dataId) = false ->
  let st1 := exec env1 (RequestRiskAssessment oracleId dataId) st in
  let st2 := exec env2 (UpdateSafetyThresholds newSeepage newDeformation) st1 in
  requested st1 =
    requested st ++
    [{| cr_reqId := oracleId;
        cr_ciphertexts :=
          [ toBytes32 (encryptedSeepage (getSensorData st dataId));
            toBytes32 (encryptedDeformation (getSensorData st dataId));
            toBytes32 (encryptedPressure (getSensorData st dataId));
            toBytes32 (encryptedSeepageThreshold st);
            toBytes32 (encryptedDeformationThreshold st) ] |}] /\
  encryptedSeepageThreshold st2 = newSeepage /\
  encryptedDeformationThreshold st2 = newDeformation /\
  requested st2 = requested st1 /\
  (forall tr, exists suffix, requested (exec_trace tr st1) = requested st1 ++ suffix) /\
  outcome env3 (AssessRisk requestId results proof) st2 =
    outcome env3 (AssessRisk requestId results proof) st1 /\
  riskAssessments (exec env3 (AssessRisk requestId results proof) st2) =
    riskAssessments (exec env3 (AssessRisk requestId results proof) st1).
Proof.
  intros Hna st1 st2.
  assert (Hst1 : st1 =
    log_event (RiskAssessmentRequested dataId)
      (log_request {| cr_reqId := oracleId;
                      cr_ciphertexts := assessment_ciphertexts st dataId |} st)).
  { unfold st1, exec, transact, dispatch. rewrite requestRiskAssessment_run.
    unfold getRiskAssessment in Hna. rewrite Hna. reflexivity. }
  assert (Hst2 : st2 = set_thresholds newSeepage newDeformation st1) by reflexivity.
  split; [rewrite Hst1; reflexivity|].
  split; [rewrite Hst2; reflexivity|].
  split; [rewrite Hst2; reflexivity|].
  split; [rewrite Hst2; reflexivity|].
  split.
  - intros tr. generalize st1. induction tr as [|[env c] tr IH]; intros s; simpl.
    + exists []. now rewrite app_nil_r.
    + destruct (IH (exec env c s)) as [s2 H2].
      destruct (requested_exec env c s) as [s1 H1].
      exists (s1 ++ s2). rewrite H2, H1. now rewrite app_assoc.
  - unfold outcome, exec, transact, dispatch. rewrite !assessRisk_run, Hst2.
    destruct (checkSignatures _ _ _); simpl; [|split; reflexivity].
    destruct (abi_decode_uint32_bool _) as [[score []]|]; simpl; split; reflexivity.
Qed.

(** ** The assessed flag over time *)

(** Among the records at or below [dataCount], a transaction changes one
    only when it is a delivery addressed to that record. *)
Lemma riskAssessment_changed_by env c st id :
  id <= dataCount st ->
  getRiskAssessment (exec env c st) id <> getRiskAssessment st id ->
  exists results proof, c = AssessRisk id results proof.
Proof.
  intros Hid Hne. destruct c as [s d p|o i|r res pf|k a|s d].
  - exfalso. apply Hne. unfold getRiskAssessment, exec, transact, dispatch.
    rewrite submitSensorData_run.
    destruct (dataCount st <? uint256_max); simpl; [|reflexivity].
    apply lookup_total_insert_ne. lia.
  - exfalso. apply Hne. unfold getRiskAssessment, exec, transact, dispatch.
    rewrite requestRiskAssessment_run. destruct (isAssessed _); reflexivity.
  - destruct (decide (id = r)) as [->|Hr]; [eauto|].
    exfalso. apply Hne. now apply assessRisk_frame.
  - exfalso. apply Hne. reflexivity.
  - exfalso. apply Hne. reflexivity.
Qed.

(** C6 (as the contract has it): for every id at or below [dataCount], so
    for every record a submission has created, and for every sequence of
    transactions: once [isAssessed] is true it stays true; the record is
    rewritten by no transaction other than a delivery addressed to it; and
    whenever score or flag differ from what they were, [isAssessed] is true.
    A delivery may rewrite them again while [isAssessed] is already true. *)
Theorem isAssessed_monotone tr st id :
  id <= dataCount st ->
  let st' := exec_trace tr st in
  (isAssessed (getRiskAssessment st id) = true ->
   isAssessed (getRiskAssessment st' id) = true) /\
  (getRiskAssessment st' id <> getRiskAssessment st id ->
   isAssessed (getRiskAssessment st' id) = true) /\
  (forall env c,
     getRiskAssessment (exec env c st) id <> getRiskAssessment st id ->
     exists results proof, c = AssessRisk id results proof).
Proof.
  intros Hid st'.
  assert (Hstep : forall env c, getRiskAssessment (exec env c st) id <>
                                getRiskAssessment st id ->
                                exists results proof, c = AssessRisk id results proof).
  { intros env c. now apply riskAssessment_changed_by. }
  cut ((isAssessed (getRiskAssessment st id) = true ->
        isAssessed (getRiskAssessment st' id) = true) /\
       (getRiskAssessment st' id <> getRiskAssessment st id ->
        isAssessed (getRiskAssessment st' id) = true)).
  { intros [H1 H2]. auto. }
  clear Hstep. subst st'. revert st Hid.
  induction tr as [|[env c] tr IH]; intros st Hid; simpl.
  - split; [auto|]. intros Hne. now contradict Hne.
  - assert (Hid1 : id <= dataCount (exec env c st)).
    { etransitivity; [exact Hid|apply dataCount_exec]. }
    destruct (IH _ Hid1) as [IH1 IH2]. unfold getRiskAssessment in *. split.
    + intros Hass. apply IH1. now apply isAssessed_exec.
    + intros Hne.
      destruct (riskAssessment_exec env c st id Hid) as [Heq|Hass].
      * apply IH2. now rewrite Heq.
      * now apply IH1.
Qed.

(** ** Callers *)

(** No entry point looks at [msg.sender]: two contexts with the same block
    time run every call alike. *)
Lemma dispatch_ignores_sender env env' c :
  block_timestamp env = block_timestamp env' ->
  dispatch env c = dispatch env' c.
Proof.
  intros Ht. destruct c as [s d p|o i|r res pf|k a|s d]; simpl;
    unfold submitSensorData, requestRiskAssessment, recordMaintenance,
      updateSafetyThresholds, onlyOperator; rewrite ?Ht; reflexivity.
Qed.

End Properties.

(** * The contract run on concrete inputs *)

(** C1: record 1 is submitted and its assessment requested; the coprocessor
    numbers the request 0 and the contract stores that number nowhere.  The
    verified result for request 0 is then written to the record stored under
    key 0, and record 1, the one the request was made for, is still
    unassessed with its initial score and flag. *)
Example assessRisk_misses_origin :
  let deliver :=
    AssessRisk 0 (encode_result Byte.x2a true) (plain_proof Byte.x00 Byte.x2a true) in
  let st' := @exec plain_fhe operator deliver requested_as_0 in
  requested requested_as_0 =
    [{| cr_reqId := 0;
        cr_ciphertexts := @assessment_ciphertexts plain_fhe requested_as_0 1 |}] /\
  @outcome plain_fhe operator deliver requested_as_0 = Ok tt /\
  getRiskAssessment st' 1 =
    {| encryptedRiskScore := @asEuint32 plain_fhe 0;
       encryptedWarningFlag := @asEbool plain_fhe false;
       isAssessed := false |} /\
  getRiskAssessment st' 0 =
    {| encryptedRiskScore := @asEuint32 plain_fhe 42;
       encryptedWarningFlag := @asEbool plain_fhe true;
       isAssessed := true |} /\
  events st' =
    [SensorDataReceived 1 1700000000; RiskAssessmentRequested 1;
     RiskWarningGenerated 0].
Proof. vm_compute. repeat split. Qed.

(** C5: a caller that was never made an operator (the contract stores no set
    of operators) calls the four guarded functions on a fresh contract; each
    call succeeds and changes the state. *)
Example onlyOperator_admits_stranger :
  let st0 := @constructor plain_fhe in
  let submit := SubmitSensorData 11 12 13 in
  let st1 := @exec plain_fhe stranger submit st0 in
  let request := RequestRiskAssessment 0 1 in
  let update := UpdateSafetyThresholds 7 8 in
  let record := RecordMaintenance 3 "grouting" in
  (@outcome plain_fhe stranger submit st0 = Ok tt /\ dataCount st1 = 1) /\
  (@outcome plain_fhe stranger request st1 = Ok tt /\
   length (requested (@exec plain_fhe stranger request st1)) = 1%nat) /\
  (@outcome plain_fhe stranger update st0 = Ok tt /\
   encryptedSeepageThreshold (@exec plain_fhe stranger update st0) = 7 /\
   encryptedSeepageThreshold st0 = @asEuint32 plain_fhe 500) /\
  (@outcome plain_fhe stranger record st0 = Ok tt /\
   getMaintenanceHistory (@exec plain_fhe stranger record st0) 3 =
     [{| mr_timestamp := 1700000000; mr_action := "grouting" |}]).
Proof. vm_compute. repeat split. Qed.

(** C2, counterexample: the first result for request 1 is delivered and
    accepted; a second call for request 1, with a valid proof for a different
    result, is accepted as well instead of failing, and the assessment record
    is overwritten. *)
Lemma second_delivery_accepted :
  @outcome plain_fhe operator first_delivery requested_as_1 = Ok tt /\
  @outcome plain_fhe operator second_delivery delivered_once = Ok tt /\
  getRiskAssessment (@exec plain_fhe operator second_delivery delivered_once) 1 <>
  getRiskAssessment delivered_once 1.
Proof.
  split; [reflexivity|]. split; [reflexivity|].
  vm_compute. discriminate.
Qed.

(** C4, counterexample: the request for record 1 is still unanswered (it is
    the one request handed to the coprocessor, and record 1 is not assessed),
    yet a second request for record 1 succeeds; so does a request for id 9,
    which no submission ever created. *)
Lemma second_request_accepted :
  map cr_reqId (requested requested_as_0) = [0] /\
  isAssessed (getRiskAssessment requested_as_0 1) = false /\
  @outcome plain_fhe operator (RequestRiskAssessment 1 1) requested_as_0 = Ok tt /\
  dataCount requested_as_0 = 1 /\
  @outcome plain_fhe operator (RequestRiskAssessment 2 9) requested_as_0 = Ok tt.
Proof. vm_compute. repeat split. Qed.

(** C6, counterexample: score and flag of record 1 are rewritten by a second
    delivery while [isAssessed] is true before and after it; and the flag
    under key 2, set by the delivery for request 2 while one record exists,
    goes back to false when the second submission takes id 2. *)
Lemma assessed_record_rewritten :
  (isAssessed (getRiskAssessment delivered_once 1) = true /\
   isAssessed (getRiskAssessment
                 (@exec plain_fhe operator second_delivery delivered_once) 1) = true /\
   encryptedRiskScore (getRiskAssessment
                 (@exec plain_fhe operator second_delivery delivered_once) 1) <>
   encryptedRiskScore (getRiskAssessment delivered_once 1)) /\
  (dataCount delivered_ahead = 1 /\
   isAssessed (getRiskAssessment delivered_ahead 2) = true /\
   isAssessed (getRiskAssessment
                 (@exec plain_fhe operator (SubmitSensorData 21 22 23)
                    delivered_ahead) 2) = false).
Proof.
  split; [split; [reflexivity|split; [reflexivity|vm_compute; discriminate]]|].
  repeat split.
Qed.

(** ** The theorems at concrete inputs *)

(** The first submission on a fresh contract. *)
Lemma submitSensorData_allocates_witness :
  dataCount (@constructor plain_fhe) < uint256_max /\
  getRiskAssessment
    (@exec plain_fhe operator (SubmitSensorData 11 12 13) (@constructor plain_fhe)) 1 =
    {| encryptedRiskScore := @asEuint32 plain_fhe 0;
       encryptedWarningFlag := @asEbool plain_fhe false;
       isAssessed := false |}.
Proof.
  assert (H : dataCount (@constructor plain_fhe) < uint256_max) by reflexivity.
  split; [exact H|].
  exact (proj1 (proj2 (proj2 (proj2
    (@submitSensorData_allocates plain_fhe operator (@constructor plain_fhe)
       11 12 13 H))))).
Defined.

(** Three records for asset 3 with a submission, a record for asset 4 and a
    threshold update in between. *)
Lemma maintenance_history_append_only_witness :
  recorded_entries 3 [(operator, SubmitSensorData 11 12 13)] = [] /\
  recorded_entries 3 [(operator, RecordMaintenance 4 "inspection")] = [] /\
  recorded_entries 3 [(stranger, UpdateSafetyThresholds 7 8)] = [] /\
  recorded_entries 3 [] = [] /\
  getMaintenanceHistory
    (@exec_trace plain_fhe
       ([(operator, SubmitSensorData 11 12 13)] ++
        [(operator, RecordMaintenance 3 "grouting")] ++
        [(operator, RecordMaintenance 4 "inspection")] ++
        [(stranger, RecordMaintenance 3 "drain cleaning")] ++
        [(stranger, UpdateSafetyThresholds 7 8)] ++
        [(operator, RecordMaintenance 3 "survey")] ++ [])
       (@constructor plain_fhe)) 3 =
  getMaintenanceHistory (@constructor plain_fhe) 3 ++
  [{| mr_timestamp := 1700000000; mr_action := "grouting" |};
   {| mr_timestamp := 1700000000; mr_action := "drain cleaning" |};
   {| mr_timestamp := 1700000000; mr_action := "survey" |}].
Proof.
  assert (Hb : recorded_entries 3 [(operator, SubmitSensorData 11 12 13)] = [])
    by reflexivity.
  assert (H1 : recorded_entries 3 [(operator, RecordMaintenance 4 "inspection")] = [])
    by reflexivity.
  assert (H2 : recorded_entries 3 [(stranger, UpdateSafetyThresholds 7 8)] = [])
    by reflexivity.
  assert (Ha : recorded_entries 3 [] = []) by reflexivity.
  split; [exact Hb|]. split; [exact H1|]. split; [exact H2|]. split; [exact Ha|].
  exact (proj2 (proj2 (proj2 (proj2 (proj2 (proj2
    (@maintenance_history_append_only plain_fhe (@constructor plain_fhe) 3))))))
    operator stranger operator "grouting" "drain cleaning" "survey"
    _ _ _ _ Hb H1 H2 Ha).
Defined.

(** Id 9 was never written. *)
Lemma reads_require_assessed_witness :
  (riskAssessments requested_as_0 !! 9 = None \/
   isAssessed (getRiskAssessment requested_as_0 9) = false) /\
  @getEncryptedRiskScore requested_as_0 9 = Revert (Require_failed "Not assessed") /\
  @hasWarning plain_fhe requested_as_0 9 = Revert (Require_failed "Not assessed").
Proof.
  assert (H : riskAssessments requested_as_0 !! 9 = None \/
              isAssessed (getRiskAssessment requested_as_0 9) = false)
    by (left; reflexivity).
  split; [exact H|].
  pose proof (@reads_require_assessed plain_fhe requested_as_0 9 H) as T.
  split; [exact (proj1 T)|exact (proj1 (proj2 T))].
Defined.

(** A proof made for request 0 is presented for request 1. *)
Lemma invalid_proof_no_effect_witness :
  @checkSignatures plain_fhe 1 (encode_result Byte.x2a true)
     (plain_proof Byte.x00 Byte.x2a true) = false /\
  @exec plain_fhe stranger
     (AssessRisk 1 (encode_result Byte.x2a true) (plain_proof Byte.x00 Byte.x2a true))
     requested_as_1 = requested_as_1.
Proof.
  assert (H : @checkSignatures plain_fhe 1 (encode_result Byte.x2a true)
                (plain_proof Byte.x00 Byte.x2a true) = false) by reflexivity.
  split; [exact H|].
  exact (proj2 (proj2
    (@invalid_proof_no_effect plain_fhe stranger requested_as_1 1 _ _ H))).
Defined.

(** Two results for request 1, one after the other. *)
Lemma assessRisk_redelivery_witness :
  @outcome plain_fhe operator first_delivery requested_as_1 = Ok tt /\
  @checkSignatures plain_fhe 1 (encode_result Byte.x07 false)
     (plain_proof Byte.x01 Byte.x07 false) = true /\
  abi_decode_uint32_bool (encode_result Byte.x07 false) = Some (7, false) /\
  @outcome plain_fhe operator second_delivery delivered_once = Ok tt.
Proof.
  assert (H1 : @outcome plain_fhe operator first_delivery requested_as_1 = Ok tt)
    by reflexivity.
  assert (H2 : @checkSignatures plain_fhe 1 (encode_result Byte.x07 false)
                 (plain_proof Byte.x01 Byte.x07 false) = true) by reflexivity.
  assert (H3 : abi_decode_uint32_bool (encode_result Byte.x07 false) = Some (7, false))
    by reflexivity.
  split; [exact H1|]. split; [exact H2|]. split; [exact H3|].
  exact (proj1
    (@assessRisk_redelivery plain_fhe operator operator requested_as_1 1
       _ _ _ _ 7 false H1 H2 H3)).
Defined.

(** Thresholds are replaced by 7 and 8 after the request for record 1. *)
Lemma thresholds_snapshot_witness :
  isAssessed (getRiskAssessment submitted_once 1) = false /\
  requested
    (@exec plain_fhe operator (UpdateSafetyThresholds 7 8)
       (@exec plain_fhe operator (RequestRiskAssessment 1 1) submitted_once)) =
  requested (@exec plain_fhe operator (RequestRiskAssessment 1 1) submitted_once).
Proof.
  assert (H : isAssessed (getRiskAssessment submitted_once 1) = false) by reflexivity.
  split; [exact H|].
  exact (proj1 (proj2 (proj2 (proj2
    (@thresholds_snapshot plain_fhe operator operator operator submitted_once 1 1 7 8
       1 (encode_result Byte.x2a true) (plain_proof Byte.x01 Byte.x2a true) H))))).
Defined.

(** Record 1, assessed, through a further delivery and a submission. *)
Lemma isAssessed_monotone_witness :
  1 <= dataCount delivered_once /\
  isAssessed (getRiskAssessment
    (@exec_trace plain_fhe
       [(operator, second_delivery); (stranger, SubmitSensorData 1 2 3)]
       delivered_once) 1) = true.
Proof.
  assert (H : 1 <= dataCount delivered_once) by (vm_compute; discriminate).
  split; [exact H|].
  exact (proj1
    (@isAssessed_monotone plain_fhe
       [(operator, second_delivery); (stranger, SubmitSensorData 1 2 3)]
       delivered_once 1 H) eq_refl).
Defined.

(** * Further properties of the contract *)

Section Extras.
Context `{fhe : FHE}.

(** Case analysis on a transaction: one goal per way a call can end. *)
Ltac run_call c :=
  unfold exec, outcome, transact, dispatch;
  destruct c as [cs cd cp|co ci|cr cres cpf|ck ca|us ud]; simpl;
  [ rewrite submitSensorData_run; destruct (dataCount _ <? uint256_max) eqn:Hlt
  | rewrite requestRiskAssessment_run;
    match goal with
    | |- context [if isAssessed ?r then _ else _] => destruct (isAssessed r) eqn:Hass
    end
  | rewrite assessRisk_run; destruct (checkSignatures _ _ _) eqn:Hsig;
    [destruct (abi_decode_uint32_bool _) as [[score []]|] eqn:Hdec|]
  | | ]; simpl.

(** A property every transaction preserves holds along every trace. *)
Lemma exec_trace_invariant (P : state -> Prop) :
  (forall env c st, P st -> P (exec env c st)) ->
  forall tr st, P st -> P (exec_trace tr st).
Proof.
  intros Hstep tr. induction tr as [|[env c] tr IH]; intros st HP; simpl; auto.
Qed.

Lemma exec_trace_app tr1 tr2 st :
  exec_trace (tr1 ++ tr2) st = exec_trace tr2 (exec_trace tr1 st).
Proof.
  revert st. induction tr1 as [|[env c] tr1 IH]; intros st; simpl; auto.
Qed.

(** ** Sensor records *)

Lemma sensorData_exec env c st id :
  id <= dataCount st ->
  sensorData (exec env c st) !!! id = sensorData st !!! id.
Proof.
  intros Hid. run_call c; try reflexivity.
  apply lookup_total_insert_ne. lia.
Qed.

(** X1: a sensor record, once created, is never changed: for every id at or
    below [dataCount] and every sequence of later transactions, the stored
    ciphertexts and timestamp read the same. *)
Theorem sensorData_immutable tr st id :
  id <= dataCount st ->
  getSensorData (exec_trace tr st) id = getSensorData st id.
Proof.
  intros Hid. unfold getSensorData.
  cut (dataCount st <= dataCount (exec_trace tr st) /\
       sensorData (exec_trace tr st) !!! id = sensorData st !!! id);
    [tauto|].
  apply (exec_trace_invariant
           (fun s => dataCount st <= dataCount s /\
                     sensorData s !!! id = sensorData st !!! id)); [|split; [lia|reflexivity]].
  intros env c s [Hle Heq]. split.
  - etransitivity; [exact Hle|apply dataCount_exec].
  - rewrite sensorData_exec by lia. exact Heq.
Qed.

(** The invariant behind X2, preserved by every transaction. *)
Lemma records_dense_exec env c st :
  (0 <= dataCount st <= uint256_max /\
   (forall id, is_Some (sensorData st !! id) <-> 1 <= id <= dataCount st) /\
   (forall id, 1 <= id <= dataCount st -> is_Some (riskAssessments st !! id))) ->
  (0 <= dataCount (exec env c st) <= uint256_max /\
   (forall id, is_Some (sensorData (exec env c st) !! id) <->
               1 <= id <= dataCount (exec env c st)) /\
   (forall id, 1 <= id <= dataCount (exec env c st) ->
               is_Some (riskAssessments (exec env c st) !! id))).
Proof.
  intros (Hb & Hs & Hr). run_call c; try (split; [exact Hb|split; assumption]).
  - apply Z.ltb_lt in Hlt. split; [lia|]. split.
    + intros id. rewrite lookup_insert. case_decide as Hd.
      * subst id. split; [lia|eauto].
      * rewrite Hs. lia.
    + intros id Hid. rewrite lookup_insert. case_decide as Hd; [eauto|].
      apply Hr. lia.
  - split; [exact Hb|]. split; [exact Hs|].
    intros id Hid. rewrite lookup_insert. case_decide; [eauto|auto].
  - split; [exact Hb|]. split; [exact Hs|].
    intros id Hid. rewrite lookup_insert. case_decide; [eauto|auto].
Qed.

(** X2: in every reachable state the counter is a [uint256], the sensor
    records are exactly those of the ids 1 to [dataCount], and each of these
    ids has its assessment record. *)
Theorem records_dense st :
  reachable st ->
  0 <= dataCount st <= uint256_max /\
  (forall id, is_Some (sensorData st !! id) <-> 1 <= id <= dataCount st) /\
  (forall id, 1 <= id <= dataCount st -> is_Some (riskAssessments st !! id)).
Proof.
  intros [tr ->].
  apply (exec_trace_invariant
           (fun s => 0 <= dataCount s <= uint256_max /\
                     (forall id, is_Some (sensorData s !! id) <-> 1 <= id <= dataCount s) /\
                     (forall id, 1 <= id <= dataCount s ->
                                 is_Some (riskAssessments s !! id)))).
  - intros env c s. apply records_dense_exec.
  - simpl. split; [unfold uint256_max; lia|]. split.
    + intros id. rewrite lookup_empty. split; [intros [x Hx]; discriminate|lia].
    + intros id Hid. lia.
Qed.

Lemma submissions_cons env c tr :
  submissions ((env, c) :: tr) =
  (match c with SubmitSensorData _ _ _ => 1 | _ => 0 end) + submissions tr.
Proof.
  unfold submissions. destruct c; cbn [omap list_omap snd]; try lia.
  rewrite length_cons. lia.
Qed.

(** X3: the counter counts the submissions: along a trace whose submissions
    fit under the top of [uint256], every submission succeeds and
    [dataCount] grows by exactly their number, whatever else the trace
    does. *)
Theorem dataCount_counts_submissions tr st :
  dataCount st + submissions tr <= uint256_max ->
  dataCount (exec_trace tr st) = dataCount st + submissions tr.
Proof.
  revert st.
  induction tr as [|[env c] tr IH]; intros st Hfit;
    [unfold submissions; simpl; lia|].
  assert (Hnn : 0 <= submissions tr) by (unfold submissions; lia).
  rewrite submissions_cons in *. cbn [exec_trace].
  assert (Hstep : dataCount (exec env c st) =
                  dataCount st + match c with SubmitSensorData _ _ _ => 1 | _ => 0 end).
  { run_call c; lia. }
  rewrite IH; lia.
Qed.

(** X4: when the counter is at the top of [uint256], [++dataCount]
    overflows: a submission reverts with the arithmetic panic and the state,
    counter included, is unchanged. *)
Theorem submitSensorData_overflow env st seepage deformation pressure :
  uint256_max <= dataCount st ->
  outcome env (SubmitSensorData seepage deformation pressure) st =
    Revert Panic_overflow /\
  exec env (SubmitSensorData seepage deformation pressure) st = st.
Proof.
  intros Hfull. unfold outcome, exec, transact, dispatch.
  rewrite submitSensorData_run.
  destruct (dataCount st <? uint256_max) eqn:Hlt; [|split; reflexivity].
  apply Z.ltb_lt in Hlt. lia.
Qed.

(** ** Delivery *)

(** X5: a delivery that verifies and decodes can be read back: afterwards
    [getEncryptedRiskScore] returns the handle of the delivered score and
    [hasWarning] the decryption of the delivered flag, both under the request
    id; [RiskWarningGenerated] is emitted once when the flag is set and not
    at all otherwise; sensor records, counter, thresholds, ledger and sent
    requests are untouched. *)
Theorem delivery_read_back env st requestId results proof score flag :
  checkSignatures requestId results proof = true ->
  abi_decode_uint32_bool results = Some (score, flag) ->
  let st' := exec env (AssessRisk requestId results proof) st in
  getEncryptedRiskScore st' requestId = Ok (asEuint32 score) /\
  hasWarning st' requestId = Ok (decrypt (asEbool flag)) /\
  events st' =
    events st ++ (if flag then [RiskWarningGenerated requestId] else []) /\
  sensorData st' = sensorData st /\
  dataCount st' = dataCount st /\
  thresholds st' = thresholds st /\
  maintenanceHistory st' = maintenanceHistory st /\
  requested st' = requested st.
Proof.
  intros Hsig Hdec st'. subst st'.
  unfold getEncryptedRiskScore, hasWarning, thresholds, exec, transact, dispatch.
  rewrite assessRisk_run, Hsig, Hdec.
  destruct flag; simpl; rewrite ?lookup_total_insert_eq; simpl;
    rewrite ?app_nil_r; repeat split.
Qed.

Lemma be_to_Z_nonneg bs : 0 <= be_to_Z bs.
Proof.
  unfold be_to_Z.
  assert (H : forall acc, 0 <= acc ->
            0 <= fold_left (fun a b => a * 256 + Z.of_N (Byte.to_N b)) bs acc).
  { induction bs as [|b bs IH]; intros a Ha; simpl; [exact Ha|].
    apply IH. lia. }
  apply H. lia.
Qed.

(** X6: a delivery whose proof verifies but whose result is shorter than the
    two 32-byte words [abi.decode] needs (the empty result included) reverts
    in the decoder, and the state is unchanged. *)
Theorem delivery_short_result env st requestId results proof :
  checkSignatures requestId results proof = true ->
  (length results < 64)%nat ->
  outcome env (AssessRisk requestId results proof) st = Revert Abi_decode_failed /\
  exec env (AssessRisk requestId results proof) st = st.
Proof.
  intros Hsig Hlen. unfold outcome, exec, transact, dispatch.
  rewrite assessRisk_run, Hsig. unfold abi_decode_uint32_bool.
  destruct (Z.of_nat (length results) <? 64) eqn:Hl; [split; reflexivity|].
  apply Z.ltb_ge in Hl. lia.
Qed.

(** X7: what [abi.decode(results, (uint32, bool))] accepts: a decoded score
    is a [uint32], and the outcome is decided by the first 64 bytes alone,
    so bytes appended to a result of at least that length change nothing. *)
Theorem abi_decode_uint32_bool_spec results :
  (forall score flag,
     abi_decode_uint32_bool results = Some (score, flag) ->
     0 <= score < 2 ^ 32 /\ (64 <= length results)%nat) /\
  (forall extra,
     (64 <= length results)%nat ->
     abi_decode_uint32_bool (results ++ extra) = abi_decode_uint32_bool results).
Proof.
  split.
  - intros score flag. unfold abi_decode_uint32_bool.
    destruct (Z.of_nat (length results) <? 64) eqn:Hl; [discriminate|].
    apply Z.ltb_ge in Hl.
    destruct (be_to_Z (take 32 results) <? 2 ^ 32) eqn:Hw; [|discriminate].
    apply Z.ltb_lt in Hw.
    pose proof (be_to_Z_nonneg (take 32 results)) as Hnn.
    destruct (be_to_Z (take 32 (drop 32 results)) =? 0);
      [|destruct (be_to_Z (take 32 (drop 32 results)) =? 1)];
      intros H; inversion H; subst; lia.
  - intros extra Hlen. unfold abi_decode_uint32_bool.
    rewrite length_app.
    assert (H1 : take 32 (results ++ extra) = take 32 results)
      by (apply take_app_le; lia).
    assert (H2 : take 32 (drop 32 (results ++ extra)) = take 32 (drop 32 results)).
    { rewrite drop_app_le by lia. apply take_app_le. rewrite length_drop. lia. }
    rewrite H1, H2.
    destruct (Z.of_nat (length results) <? 64) eqn:Hl;
      [apply Z.ltb_lt in Hl; lia|].
    destruct (Z.of_nat (length results + length extra) <? 64) eqn:Hl';
      [apply Z.ltb_lt in Hl'; lia|reflexivity].
Qed.

(** A record becomes assessed through a verified delivery under its key and
    in no other way. *)
Lemma isAssessed_origin_exec env c st id :
  isAssessed (riskAssessments (exec env c st) !!! id) = true ->
  isAssessed (riskAssessments st !!! id) = true \/
  (exists results proof,
     c = AssessRisk id results proof /\ checkSignatures id results proof = true).
Proof.
  run_call c; intros H; auto.
  - destruct (decide (dataCount st + 1 = id)) as [Heq|Hne].
    + rewrite Heq, lookup_total_insert_eq in H. discriminate.
    + rewrite lookup_total_insert_ne in H by exact Hne. auto.
  - destruct (decide (cr = id)) as [->|Hne]; [eauto|].
    rewrite lookup_total_insert_ne in H by exact Hne. auto.
  - destruct (decide (cr = id)) as [->|Hne]; [eauto|].
    rewrite lookup_total_insert_ne in H by exact Hne. auto.
Qed.

(** X8: only a delivery marks a record assessed: if [isAssessed] holds for a
    key after a trace, it held before the trace or the trace contains a
    delivery for that key whose proof verifies.  Submissions, requests,
    threshold updates and maintenance records never set it. *)
Theorem isAssessed_only_by_delivery tr st id :
  isAssessed (getRiskAssessment (exec_trace tr st) id) = true ->
  isAssessed (getRiskAssessment st id) = true \/
  (exists env results proof,
     In (env, AssessRisk id results proof) tr /\
     checkSignatures id results proof = true).
Proof.
  unfold getRiskAssessment. revert st.
  induction tr as [|[env c] tr IH]; intros st H; simpl in *; [auto|].
  destruct (IH _ H) as [Hprev|(env' & res & pf & Hin & Hsig)].
  - destruct (isAssessed_origin_exec env c st id Hprev) as [H0|(res & pf & -> & Hsig)];
      [auto|]. right. exists env, res, pf. auto.
  - right. exists env', res, pf. auto.
Qed.

(** ** Thresholds and requests *)

Lemma thresholds_exec env c st :
  thresholds (exec env c st) =
  match c with
  | UpdateSafetyThresholds s d => (s, d)
  | _ => thresholds st
  end.
Proof. run_call c; reflexivity. Qed.

(** X9: thresholds are set by [updateSafetyThresholds] alone, and the last
    update wins: after any trace the stored thresholds are the pair the last
    update of the trace asked for, or the ones before the trace when it
    holds no update.  No value is refused, and no other call changes them. *)
Theorem thresholds_last_update tr st :
  thresholds (exec_trace tr st) = thresholds_after tr (thresholds st).
Proof.
  unfold thresholds_after. revert st.
  induction tr as [|[env c] tr IH]; intros st; simpl; [reflexivity|].
  rewrite IH, thresholds_exec. destruct c; reflexivity.
Qed.

(** X10: a submission followed by a request for the new id: the request
    succeeds, the coprocessor is handed the three submitted ciphertexts
    followed by the two thresholds in force, and the record is still
    unreadable, since a request alone assesses nothing. *)
Theorem submit_then_request env1 env2 st seepage deformation pressure oracleId :
  dataCount st < uint256_max ->
  let newId := dataCount st + 1 in
  let st1 := exec env1 (SubmitSensorData seepage deformation pressure) st in
  let st2 := exec env2 (RequestRiskAssessment oracleId newId) st1 in
  outcome env2 (RequestRiskAssessment oracleId newId) st1 = Ok tt /\
  requested st2 =
    requested st ++
    [{| cr_reqId := oracleId;
        cr_ciphertexts :=
          [ toBytes32 seepage; toBytes32 deformation; toBytes32 pressure;
            toBytes32 (encryptedSeepageThreshold st);
            toBytes32 (encryptedDeformationThreshold st) ] |}] /\
  getEncryptedRiskScore st2 newId = Revert (Require_failed "Not assessed") /\
  hasWarning st2 newId = Revert (Require_failed "Not assessed").
Proof.
  intros Hlt newId st1 st2. apply Z.ltb_lt in Hlt.
  assert (Hst1 : st1 =
    log_event (SensorDataReceived newId (block_timestamp env1))
      (set_riskAssessment newId
         {| encryptedRiskScore := asEuint32 0;
            encryptedWarningFlag := asEbool false;
            isAssessed := false |}
         (set_sensorData newId
            {| encryptedSeepage := seepage; encryptedDeformation := deformation;
               encryptedPressure := pressure; timestamp := block_timestamp env1 |}
            (set_dataCount newId st)))).
  { unfold st1, exec, transact, dispatch. rewrite submitSensorData_run, Hlt.
    reflexivity. }
  assert (Hna : isAssessed (riskAssessments st1 !!! newId) = false).
  { rewrite Hst1. simpl. rewrite lookup_total_insert_eq. reflexivity. }
  assert (Hst2 : st2 =
    log_event (RiskAssessmentRequested newId)
      (log_request {| cr_reqId := oracleId;
                      cr_ciphertexts := assessment_ciphertexts st1 newId |} st1)).
  { unfold st2, exec, transact, dispatch.
    rewrite requestRiskAssessment_run, Hna. reflexivity. }
  split.
  { unfold outcome, transact, dispatch.
    rewrite requestRiskAssessment_run, Hna. reflexivity. }
  split.
  { rewrite Hst2. simpl. unfold assessment_ciphertexts.
    rewrite Hst1. simpl. rewrite lookup_total_insert_eq. reflexivity. }
  unfold getEncryptedRiskScore, hasWarning.
  assert (Hna2 : isAssessed (riskAssessments st2 !!! newId) = false).
  { rewrite Hst2. simpl. exact Hna. }
  rewrite Hna2. split; reflexivity.
Qed.

(** X11: a request for an id that has no sensor record and is not assessed
    is not refused: it succeeds and hands the coprocessor three zero handles
    in place of sensor ciphertexts, followed by the two thresholds. *)
Theorem request_without_record env st oracleId dataId :
  sensorData st !! dataId = None ->
  isAssessed (getRiskAssessment st dataId) = false ->
  outcome env (RequestRiskAssessment oracleId dataId) st = Ok tt /\
  requested (exec env (RequestRiskAssessment oracleId dataId) st) =
    requested st ++
    [{| cr_reqId := oracleId;
        cr_ciphertexts :=
          [ toBytes32 0; toBytes32 0; toBytes32 0;
            toBytes32 (encryptedSeepageThreshold st);
            toBytes32 (encryptedDeformationThreshold st) ] |}].
Proof.
  intros Hnone Hna. unfold getRiskAssessment in Hna.
  unfold outcome, exec, transact, dispatch.
  rewrite requestRiskAssessment_run, Hna. simpl. split; [reflexivity|].
  unfold assessment_ciphertexts. rewrite lookup_total_alt, Hnone. reflexivity.
Qed.

(** X12: an assessed record at or below [dataCount] is in its final state:
    after any further transactions a new request for it is refused with
    "Already assessed" and both reads return a value. *)
Theorem assessed_is_final tr st id env oracleId :
  id <= dataCount st ->
  isAssessed (getRiskAssessment st id) = true ->
  let st' := exec_trace tr st in
  outcome env (RequestRiskAssessment oracleId id) st' =
    Revert (Require_failed "Already assessed") /\
  (exists score, getEncryptedRiskScore st' id = Ok score) /\
  (exists warning, hasWarning st' id = Ok warning).
Proof.
  intros Hid Hass st'. unfold getRiskAssessment in Hass.
  assert (H : id <= dataCount st' /\ isAssessed (riskAssessments st' !!! id) = true).
  { apply (exec_trace_invariant
             (fun s => id <= dataCount s /\
                       isAssessed (riskAssessments s !!! id) = true)); [|auto].
    intros e c s [Hle Ha]. split.
    - etransitivity; [exact Hle|apply dataCount_exec].
    - now apply isAssessed_exec. }
  destruct H as [_ H].
  unfold outcome, transact, dispatch, getEncryptedRiskScore, hasWarning.
  rewrite requestRiskAssessment_run, H. simpl. eauto.
Qed.

(** ** Callers *)

(** X13: no call consults [msg.sender]: replacing the senders of a trace by
    any others leads to the same state, events and requests included. *)
Theorem senders_irrelevant f tr st :
  exec_trace (with_senders f tr) st = exec_trace tr st.
Proof.
  revert st. induction tr as [|[env c] tr IH]; intros st; [reflexivity|].
  cbn [with_senders map exec_trace fst snd]. fold (with_senders f tr).
  rewrite IH. unfold exec.
  rewrite (dispatch_ignores_sender _ env c) by reflexivity. reflexivity.
Qed.

(** ** The logs against storage *)

Lemma maintenance_events_snoc damId evs e :
  maintenance_events damId (evs ++ [e]) =
  maintenance_events damId evs ++
  match e with
  | MaintenanceRecorded k a => if decide (k = damId) then [a] else []
  | _ => []
  end.
Proof.
  unfold maintenance_events. rewrite omap_app. f_equal.
  destruct e; simpl; try reflexivity. case_decide; reflexivity.
Qed.

(** X14: the ledger and the event log agree: in every reachable state the
    actions in the stored history of an asset are, in order, the actions of
    the [MaintenanceRecorded] events emitted for that asset. *)
Theorem ledger_matches_events st damId :
  reachable st ->
  mr_action <$> getMaintenanceHistory st damId =
  maintenance_events damId (events st).
Proof.
  intros [tr ->]. unfold getMaintenanceHistory.
  apply (exec_trace_invariant
           (fun s => mr_action <$> maintenanceHistory s !!! damId =
                     maintenance_events damId (events s))).
  - intros env c s Inv. run_call c; rewrite ?maintenance_events_snoc, ?app_nil_r;
      try exact Inv.
    destruct (decide (ck = damId)) as [->|Hne].
    + rewrite lookup_total_insert_eq, fmap_app, Inv. reflexivity.
    + rewrite lookup_total_insert_ne by exact Hne. rewrite app_nil_r. exact Inv.
  - simpl. rewrite lookup_total_empty. reflexivity.
Qed.

Lemma sensor_events_snoc evs e :
  sensor_events (evs ++ [e]) =
  sensor_events evs ++
  match e with SensorDataReceived i t => [(i, t)] | _ => [] end.
Proof.
  unfold sensor_events. rewrite omap_app. f_equal. destruct e; reflexivity.
Qed.

(** X15: the submissions and the event log agree: in every reachable state
    the [SensorDataReceived] events list the ids 1 to [dataCount] in order,
    each with the timestamp stored in its sensor record. *)
Theorem sensor_events_match st :
  reachable st ->
  sensor_events (events st) =
  (fun id => (id, timestamp (getSensorData st id))) <$> seqZ 1 (dataCount st).
Proof.
  intros [tr ->]. unfold getSensorData.
  cut (0 <= dataCount (exec_trace tr constructor) /\
       sensor_events (events (exec_trace tr constructor)) =
       (fun id => (id, timestamp (sensorData (exec_trace tr constructor) !!! id)))
         <$> seqZ 1 (dataCount (exec_trace tr constructor))); [tauto|].
  apply (exec_trace_invariant
           (fun s => 0 <= dataCount s /\
                     sensor_events (events s) =
                     (fun id => (id, timestamp (sensorData s !!! id)))
                       <$> seqZ 1 (dataCount s))).
  - intros env c s [Hnn Inv].
    run_call c; rewrite ?sensor_events_snoc, ?app_nil_r; try (split; assumption).
    split; [lia|].
    rewrite seqZ_app by lia. rewrite fmap_app, Inv.
    replace (seqZ (1 + dataCount s) 1) with [dataCount s + 1]
      by (rewrite Z.add_comm; reflexivity).
    simpl. rewrite lookup_total_insert_eq. simpl. f_equal.
    apply Forall_fmap_ext, Forall_seqZ. intros id Hid.
    rewrite lookup_total_insert_ne by lia. reflexivity.
  - simpl. split; [lia|reflexivity].
Qed.

Lemma request_events_snoc evs e :
  request_events (evs ++ [e]) =
  request_events evs ++
  match e with RiskAssessmentRequested i => [i] | _ => [] end.
Proof.
  unfold request_events. rewrite omap_app. f_equal. destruct e; reflexivity.
Qed.

(** X16: the requests and the event log agree: in every reachable state the
    computation requests handed to the coprocessor are as many as the
    [RiskAssessmentRequested] events, and each carries exactly five
    ciphertext words. *)
Theorem requests_match_events st :
  reachable st ->
  length (requested st) = length (request_events (events st)) /\
  Forall (fun r => length (cr_ciphertexts r) = 5%nat) (requested st).
Proof.
  intros [tr ->].
  apply (exec_trace_invariant
           (fun s => length (requested s) = length (request_events (events s)) /\
                     Forall (fun r => length (cr_ciphertexts r) = 5%nat) (requested s))).
  - intros env c s [Hlen Hall].
    run_call c; rewrite ?request_events_snoc, ?app_nil_r; try (split; assumption).
    split.
    + rewrite !length_app, Hlen. reflexivity.
    + apply Forall_app. split; [exact Hall|]. constructor; [reflexivity|constructor].
  - simpl. split; [reflexivity|constructor].
Qed.

(** ** The ledger by index *)

(** X17: an entry of the ledger keeps its index and its content: what the
    indexed getter returns for an asset at an index, it returns there after
    every further sequence of transactions. *)
Theorem maintenance_entry_stable tr st damId index entry :
  maintenanceHistory_at st damId index = Some entry ->
  maintenanceHistory_at (exec_trace tr st) damId index = Some entry.
Proof.
  unfold maintenanceHistory_at. intros Hat.
  apply (exec_trace_invariant
           (fun s => (maintenanceHistory s !!! damId) !! index = Some entry));
    [|exact Hat].
  intros env c s Hs.
  destruct (maintenanceHistory_exec env c s damId) as [suffix ->].
  rewrite lookup_app_l; [exact Hs|]. eapply lookup_lt_Some; eassumption.
Qed.

(** X18: where a new entry goes: after [recordMaintenance] the indexed getter
    returns the new entry at the index equal to the previous length of the
    asset's history, reverts at every higher index, and answers for every
    other asset as before. *)
Theorem maintenance_entry_position env st damId action :
  let st' := exec env (RecordMaintenance damId action) st in
  let n := length (getMaintenanceHistory st damId) in
  maintenanceHistory_at st' damId n =
    Some {| mr_timestamp := block_timestamp env; mr_action := action |} /\
  (forall index, (n < index)%nat -> maintenanceHistory_at st' damId index = None) /\
  (forall other index,
     other <> damId ->
     maintenanceHistory_at st' other index = maintenanceHistory_at st other index).
Proof.
  unfold maintenanceHistory_at, getMaintenanceHistory, exec, transact; simpl.
  split; [|split].
  - rewrite lookup_total_insert_eq. apply list_lookup_middle. reflexivity.
  - intros index Hlt. rewrite lookup_total_insert_eq.
    apply lookup_ge_None_2. rewrite length_app. simpl. lia.
  - intros other index Hne. rewrite lookup_total_insert_ne by congruence.
    reflexivity.
Qed.

End Extras.

(** ** The further properties at concrete inputs *)

(** Record 1 through a request, a delivery and a second submission. *)
Lemma sensorData_immutable_witness :
  1 <= dataCount submitted_once /\
  getSensorData
    (@exec_trace plain_fhe
       [(operator, RequestRiskAssessment 1 1); (operator, first_delivery);
        (stranger, SubmitSensorData 21 22 23)] submitted_once) 1 =
  getSensorData submitted_once 1.
Proof.
  assert (H : 1 <= dataCount submitted_once) by (vm_compute; discriminate).
  split; [exact H|].
  exact (@sensorData_immutable plain_fhe _ submitted_once 1 H).
Defined.

(** The state after one submission and one request is reachable. *)
Lemma records_dense_witness :
  @reachable plain_fhe requested_as_0 /\
  0 <= dataCount requested_as_0 <= uint256_max.
Proof.
  assert (H : @reachable plain_fhe requested_as_0)
    by (exists [(operator, SubmitSensorData 11 12 13);
                (operator, RequestRiskAssessment 0 1)]; reflexivity).
  split; [exact H|].
  exact (proj1 (@records_dense plain_fhe requested_as_0 H)).
Defined.

(** Two submissions around a request on a fresh contract. *)
Lemma dataCount_counts_submissions_witness :
  dataCount (@constructor plain_fhe) +
    @submissions
      [(operator, SubmitSensorData 11 12 13); (operator, RequestRiskAssessment 0 1);
       (stranger, SubmitSensorData 21 22 23)] <= uint256_max /\
  dataCount
    (@exec_trace plain_fhe
       [(operator, SubmitSensorData 11 12 13); (operator, RequestRiskAssessment 0 1);
        (stranger, SubmitSensorData 21 22 23)] (@constructor plain_fhe)) = 2.
Proof.
  assert (H : dataCount (@constructor plain_fhe) +
    @submissions
      [(operator, SubmitSensorData 11 12 13); (operator, RequestRiskAssessment 0 1);
       (stranger, SubmitSensorData 21 22 23)] <= uint256_max)
    by (vm_compute; discriminate).
  split; [exact H|].
  exact (@dataCount_counts_submissions plain_fhe _ (@constructor plain_fhe) H).
Defined.

(** A submission with the counter at the top of [uint256]. *)
Lemma submitSensorData_overflow_witness :
  uint256_max <= dataCount counter_full /\
  @outcome plain_fhe operator (SubmitSensorData 11 12 13) counter_full =
    Revert Panic_overflow.
Proof.
  assert (H : uint256_max <= dataCount counter_full) by (vm_compute; discriminate).
  split; [exact H|].
  exact (proj1 (@submitSensorData_overflow plain_fhe operator counter_full 11 12 13 H)).
Defined.

(** The first result for request 1, read back. *)
Lemma delivery_read_back_witness :
  @checkSignatures plain_fhe 1 (encode_result Byte.x2a true)
     (plain_proof Byte.x01 Byte.x2a true) = true /\
  abi_decode_uint32_bool (encode_result Byte.x2a true) = Some (42, true) /\
  @getEncryptedRiskScore delivered_once 1 = Ok (@asEuint32 plain_fhe 42).
Proof.
  assert (H1 : @checkSignatures plain_fhe 1 (encode_result Byte.x2a true)
                 (plain_proof Byte.x01 Byte.x2a true) = true) by reflexivity.
  assert (H2 : abi_decode_uint32_bool (encode_result Byte.x2a true) = Some (42, true))
    by reflexivity.
  split; [exact H1|]. split; [exact H2|].
  exact (proj1 (@delivery_read_back plain_fhe operator requested_as_1 1
                  _ _ 42 true H1 H2)).
Defined.

(** An empty result with the proof the instance accepts for request 0. *)
Lemma delivery_short_result_witness :
  @checkSignatures plain_fhe 0 [] [] = true /\
  (length ([] : bytes) < 64)%nat /\
  @exec plain_fhe stranger (AssessRisk 0 [] []) requested_as_0 = requested_as_0.
Proof.
  assert (H1 : @checkSignatures plain_fhe 0 [] [] = true) by reflexivity.
  assert (H2 : (length ([] : bytes) < 64)%nat) by (vm_compute; lia).
  split; [exact H1|]. split; [exact H2|].
  exact (proj2 (@delivery_short_result plain_fhe stranger requested_as_0 0 [] [] H1 H2)).
Defined.

(** Record 1 is assessed after the first delivery; the trace holds it. *)
Lemma isAssessed_only_by_delivery_witness :
  isAssessed (getRiskAssessment
    (@exec_trace plain_fhe [(operator, first_delivery)] requested_as_1) 1) = true /\
  (isAssessed (getRiskAssessment requested_as_1 1) = true \/
   exists env results proof,
     In (env, AssessRisk 1 results proof) [(operator, first_delivery)] /\
     @checkSignatures plain_fhe 1 results proof = true).
Proof.
  assert (H : isAssessed (getRiskAssessment
    (@exec_trace plain_fhe [(operator, first_delivery)] requested_as_1) 1) = true)
    by reflexivity.
  split; [exact H|].
  exact (@isAssessed_only_by_delivery plain_fhe _ requested_as_1 1 H).
Defined.

(** A submission and a request on a fresh contract. *)
Lemma submit_then_request_witness :
  dataCount (@constructor plain_fhe) < uint256_max /\
  @outcome plain_fhe operator (RequestRiskAssessment 0 1) submitted_once = Ok tt.
Proof.
  assert (H : dataCount (@constructor plain_fhe) < uint256_max) by reflexivity.
  split; [exact H|].
  exact (proj1 (@submit_then_request plain_fhe operator operator
                  (@constructor plain_fhe) 11 12 13 0 H)).
Defined.

(** Id 9 has no record in a contract that holds one. *)
Lemma request_without_record_witness :
  sensorData submitted_once !! 9 = None /\
  isAssessed (getRiskAssessment submitted_once 9) = false /\
  @outcome plain_fhe operator (RequestRiskAssessment 0 9) submitted_once = Ok tt.
Proof.
  assert (H1 : sensorData submitted_once !! 9 = None) by reflexivity.
  assert (H2 : isAssessed (getRiskAssessment submitted_once 9) = false) by reflexivity.
  split; [exact H1|]. split; [exact H2|].
  exact (proj1 (@request_without_record plain_fhe operator submitted_once 0 9 H1 H2)).
Defined.

(** Record 1, assessed, then a threshold update and a submission. *)
Lemma assessed_is_final_witness :
  1 <= dataCount delivered_once /\
  isAssessed (getRiskAssessment delivered_once 1) = true /\
  @outcome plain_fhe operator (RequestRiskAssessment 5 1)
    (@exec_trace plain_fhe
       [(operator, UpdateSafetyThresholds 7 8); (stranger, SubmitSensorData 21 22 23)]
       delivered_once) = Revert (Require_failed "Already assessed").
Proof.
  assert (H1 : 1 <= dataCount delivered_once) by (vm_compute; discriminate).
  assert (H2 : isAssessed (getRiskAssessment delivered_once 1) = true) by reflexivity.
  split; [exact H1|]. split; [exact H2|].
  exact (proj1 (@assessed_is_final plain_fhe _ delivered_once 1 operator 5 H1 H2)).
Defined.

(** The ledger of asset 3 after three maintenance records. *)
Lemma ledger_matches_events_witness :
  @reachable plain_fhe maintained /\
  mr_action <$> getMaintenanceHistory maintained 3 = ["grouting"; "drain cleaning"].
Proof.
  assert (H : @reachable plain_fhe maintained)
    by (exists [ (operator, RecordMaintenance 3 "grouting");
                 (operator, RecordMaintenance 4 "inspection");
                 (stranger, RecordMaintenance 3 "drain cleaning") ]; reflexivity).
  split; [exact H|].
  exact (@ledger_matches_events plain_fhe maintained 3 H).
Defined.

(** The one submission of [requested_as_0] and its event. *)
Lemma sensor_events_match_witness :
  @reachable plain_fhe requested_as_0 /\
  sensor_events (events requested_as_0) = [(1, 1700000000)].
Proof.
  assert (H : @reachable plain_fhe requested_as_0)
    by (exists [(operator, SubmitSensorData 11 12 13);
                (operator, RequestRiskAssessment 0 1)]; reflexivity).
  split; [exact H|].
  exact (@sensor_events_match plain_fhe requested_as_0 H).
Defined.

(** The one request of [requested_as_1] and its event. *)
Lemma requests_match_events_witness :
  @reachable plain_fhe requested_as_1 /\
  length (requested requested_as_1) =
  length (request_events (events requested_as_1)).
Proof.
  assert (H : @reachable plain_fhe requested_as_1)
    by (exists [(operator, SubmitSensorData 11 12 13);
                (operator, RequestRiskAssessment 1 1)]; reflexivity).
  split; [exact H|].
  exact (proj1 (@requests_match_events plain_fhe requested_as_1 H)).
Defined.

(** The first entry of asset 3 through two further records. *)
Lemma maintenance_entry_stable_witness :
  @maintenanceHistory_at maintained 3 0 =
    Some {| mr_timestamp := 1700000000; mr_action := "grouting" |} /\
  @maintenanceHistory_at
    (@exec_trace plain_fhe
       [(operator, RecordMaintenance 3 "survey"); (operator, RecordMaintenance 4 "repair")]
       maintained) 3 0 =
    Some {| mr_timestamp := 1700000000; mr_action := "grouting" |}.
Proof.
  assert (H : @maintenanceHistory_at maintained 3 0 =
                Some {| mr_timestamp := 1700000000; mr_action := "grouting" |})
    by reflexivity.
  split; [exact H|].
  exact (@maintenance_entry_stable plain_fhe _ maintained 3 0 _ H).
Defined.
